(** * ksef-pdf-generator: the command-line pipeline of [src/cli.ts] and the
      UPO page assembler of [lib-public/UPO-4_2-generators.ts]

    A shallow embedding of the TypeScript sources.  JavaScript values that
    the code inspects (the compact tree produced by [xml2js]) are a small
    inductive type, [throw] and rejected promises are an error monad, the
    file system is a finite map from paths to file contents. *)

From Stdlib Require Import String Ascii NArith List Bool Lia.
From Stdlib Require Import DecimalString DecimalPos DecimalN.
From stdpp Require Import base option gmap strings.
Import ListNotations.

Local Open Scope string_scope.
Local Open Scope list_scope.

#[local] Unset Default Proof Using.

(** ** JavaScript values *)

(** The compact tree of [xml2js(..., {compact: true})]: text and attribute
    values are strings, elements are objects, repeated elements arrays.
    An object keeps its properties in insertion order. *)
#[local] Unset Elimination Schemes.
Inductive JsVal : Type :=
| JStr (s : string)
| JArr (items : list JsVal)
| JObj (props : list (string * JsVal)).
#[local] Set Elimination Schemes.

Definition JsObject : Type := list (string * JsVal).

Section JsVal_induction.
Variable P : JsVal -> Prop.
Hypothesis HStr : forall s, P (JStr s).
Hypothesis HArr : forall items, Forall P items -> P (JArr items).
Hypothesis HObj : forall props, Forall (fun kv => P (snd kv)) props -> P (JObj props).

Fixpoint JsVal_nested_ind (v : JsVal) : P v :=
  match v with
  | JStr s => HStr s
  | JArr items =>
      HArr items
        ((fix go (l : list JsVal) : Forall P l :=
            match l with
            | [] => List.Forall_nil P
            | x :: r => List.Forall_cons _ x r (JsVal_nested_ind x) (go r)
            end) items)
  | JObj props =>
      HObj props
        ((fix go (l : list (string * JsVal)) : Forall (fun kv => P (snd kv)) l :=
            match l with
            | [] => List.Forall_nil _
            | (k, x) :: r => List.Forall_cons _ (k, x) r (JsVal_nested_ind x) (go r)
            end) props)
  end.
End JsVal_induction.

(** [o[k]] on an object: the value of the property, [None] for [undefined]. *)
Fixpoint get_prop (o : JsObject) (k : string) : option JsVal :=
  match o with
  | [] => None
  | (k', v) :: r => if String.eqb k' k then Some v else get_prop r k
  end.

(** [k in o] for an object with no inherited property of that name. *)
Definition has_key (k : string) (o : JsObject) : bool :=
  match get_prop o k with Some _ => true | None => false end.

(** [v.k] for a value [v] that is not [undefined]: strings and arrays have no
    property named after an XML element, so only objects answer. *)
Definition member (v : JsVal) (k : string) : option JsVal :=
  match v with
  | JObj props => get_prop props k
  | JStr _ | JArr _ => None
  end.

(** [v?.k]: [undefined] propagates. *)
Definition opt_member (v : option JsVal) (k : string) : option JsVal :=
  match v with
  | Some x => member x k
  | None => None
  end.

(** ToBoolean on a string, and on a value that may be [undefined]. *)
Definition truthy_string (s : string) : bool :=
  match s with EmptyString => false | String _ _ => true end.

Definition truthy (v : option JsVal) : bool :=
  match v with
  | None => false
  | Some (JStr s) => truthy_string s
  | Some (JArr _) | Some (JObj _) => true
  end.

Definition truthy_opt_string (s : option string) : bool :=
  match s with
  | None => false
  | Some x => truthy_string x
  end.

(** [a || b] on optional strings. *)
Definition or_else (a : option string) (b : string) : string :=
  match a with
  | Some x => if truthy_string x then x else b
  | None => b
  end.

(** ** Exceptions *)

(** What a [throw] or a rejected promise carries. *)
Inductive Thrown : Type :=
| JsError (message : string)       (* throw new Error(message) *)
| JsTypeError (message : string)   (* raised by the engine *)
| JsRejected (reason : string).    (* reject('...') with a bare string *)

Inductive Completion (A : Type) : Type :=
| Normal (a : A)
| Throw (e : Thrown).
Arguments Normal {A} a.
Arguments Throw {A} e.

Definition bind {A B : Type} (c : Completion A) (k : A -> Completion B) : Completion B :=
  match c with
  | Normal a => k a
  | Throw e => Throw e
  end.

Declare Scope js_scope.
Delimit Scope js_scope with js.
Notation "'let*' x ':=' c 'in' k" := (bind c (fun x => k))
  (at level 10, x pattern, c at level 100, k at level 200) : js_scope.
Local Open Scope js_scope.

(** ** Document type and schema version ([cli.ts], lines 45-46, 97-108) *)

Inductive DocumentType : Type := invoice | upo.

Inductive InvoiceVersion : Type := FA1 | FA2 | FA3.

Definition DocumentType_of_string (s : string) : option DocumentType :=
  if String.eqb s "invoice" then Some invoice
  else if String.eqb s "upo" then Some upo
  else None.

Definition detectDocumentType (xml : JsObject) : Completion DocumentType :=
  if has_key "Faktura" xml then Normal invoice
  else if has_key "Potwierdzenie" xml then Normal upo
  else Throw (JsError "Unable to detect document type. Use -t invoice or -t upo").

(** [asserts type is DocumentType | undefined]: the value returned is the
    narrowed [type], [None] standing for a falsy one ([undefined] or the
    empty string), which the [||] of [processFile] replaces by detection. *)
Definition validateDocumentType (type : option string) : Completion (option DocumentType) :=
  match type with
  | None => Normal None
  | Some t =>
      if negb (truthy_string t) then Normal None
      else if negb (String.eqb t "invoice") && negb (String.eqb t "upo")
           then Throw (JsError ("Invalid document type: " ++ t ++ ". Must be 'invoice' or 'upo'"))
           else Normal (DocumentType_of_string t)
  end.

(** [validateDocumentType(values.type); values.type || detectDocumentType(xml)]
    as [processFile] runs them (lines 204-205).  The second component tells
    whether [detectDocumentType] was called. *)
Definition resolveDocumentType (type : option string) (xml : JsObject)
  : Completion (DocumentType * bool) :=
  let* narrowed := validateDocumentType type in
  match narrowed with
  | Some d => Normal (d, false)
  | None => let* d := detectDocumentType xml in Normal (d, true)
  end.

(** The [switch] of [generatePDFByVersion]: strict equality of the value read
    from the tree with each of the three literals. *)
Definition versionCase (version : JsVal) : option InvoiceVersion :=
  match version with
  | JStr s =>
      if String.eqb s "FA (1)" then Some FA1
      else if String.eqb s "FA (2)" then Some FA2
      else if String.eqb s "FA (3)" then Some FA3
      else None
  | JArr _ | JObj _ => None
  end.

(** [xml.Faktura.Naglowek?.KodFormularza?._attributes?.kodSystemowy] *)
Definition kodSystemowy (faktura : JsVal) : option JsVal :=
  opt_member (opt_member (opt_member (member faktura "Naglowek") "KodFormularza")
                "_attributes") "kodSystemowy".

(** ** String primitives *)

(** [String.prototype.toLowerCase] on the ASCII letters.  No other character
    lowers to one of [.], [x], [m], [l], the only ones [getOutputPath] looks
    for, so the remaining characters are left as they are. *)
Definition lower_char (c : ascii) : ascii :=
  let n := N_of_ascii c in
  if (65 <=? n)%N && (n <=? 90)%N then ascii_of_N (n + 32) else c.

Fixpoint toLowerCase (s : string) : string :=
  match s with
  | EmptyString => EmptyString
  | String c r => String (lower_char c) (toLowerCase r)
  end.

(** [s.endsWith(suffix)] *)
Definition endsWith (s suffix : string) : bool :=
  (String.length suffix <=? String.length s)%nat
  && String.eqb (substring (String.length s - String.length suffix) (String.length suffix) s) suffix.

(** [s.slice(0, -n)]: all but the last [n] characters. *)
Definition slice_0_neg (n : nat) (s : string) : string :=
  substring 0 (String.length s - n) s.

(** White space of [String.prototype.trim] in the ASCII range: tab, line
    feed, vertical tab, form feed, carriage return, space. *)
Definition is_space (c : ascii) : bool :=
  let n := N_of_ascii c in
  ((9 <=? n)%N && (n <=? 13)%N) || (n =? 32)%N.

(** The other white space and line terminators that [trim] strips, in the
    UTF-8 encoding in which the text of a file is held here: U+00A0 on two
    bytes; U+1680, U+2000 to U+200A, U+2028, U+2029, U+202F, U+205F, U+3000
    and U+FEFF on three.  A lead byte is never a continuation byte, so these
    bytes at the start or at the end of a text are that character. *)
Definition is_space2 (b1 b2 : ascii) : bool :=
  (N_of_ascii b1 =? 194)%N && (N_of_ascii b2 =? 160)%N.

Definition is_space3 (b1 b2 b3 : ascii) : bool :=
  let n1 := N_of_ascii b1 in
  let n2 := N_of_ascii b2 in
  let n3 := N_of_ascii b3 in
  ((n1 =? 225) && (n2 =? 154) && (n3 =? 128))%N
  || ((n1 =? 226) && (n2 =? 128)
      && (((128 <=? n3) && (n3 <=? 138)) || (n3 =? 168) || (n3 =? 169) || (n3 =? 175)))%N
  || ((n1 =? 226) && (n2 =? 129) && (n3 =? 159))%N
  || ((n1 =? 227) && (n2 =? 128) && (n3 =? 128))%N
  || ((n1 =? 239) && (n2 =? 187) && (n3 =? 191))%N.

Fixpoint trimStart (s : string) : string :=
  match s with
  | EmptyString => EmptyString
  | String c1 r1 =>
      if is_space c1 then trimStart r1
      else
        match r1 with
        | String c2 r2 =>
            if is_space2 c1 c2 then trimStart r2
            else
              match r2 with
              | String c3 r3 => if is_space3 c1 c2 c3 then trimStart r3 else s
              | EmptyString => s
              end
        | EmptyString => s
        end
  end.

Fixpoint rev_string (s acc : string) : string :=
  match s with
  | EmptyString => acc
  | String c r => rev_string r (String c acc)
  end.

(** [trimStart] on a text read backwards: the bytes of a character come
    last byte first. *)
Fixpoint trimStart_reversed (s : string) : string :=
  match s with
  | EmptyString => EmptyString
  | String c1 r1 =>
      if is_space c1 then trimStart_reversed r1
      else
        match r1 with
        | String c2 r2 =>
            if is_space2 c2 c1 then trimStart_reversed r2
            else
              match r2 with
              | String c3 r3 => if is_space3 c3 c2 c1 then trimStart_reversed r3 else s
              | EmptyString => s
              end
        | EmptyString => s
        end
  end.

Definition trim (s : string) : string :=
  rev_string (trimStart_reversed (rev_string (trimStart s) "")) "".

(** [Number.prototype.toString] on a non-negative integer in the range where
    a JavaScript number prints all its decimal digits (any safe integer). *)
Definition MAX_SAFE_INTEGER : N := 9007199254740991.

Definition Number_toString (n : N) : string :=
  NilZero.string_of_uint (N.to_uint n).

(** ** Output path ([cli.ts], lines 172-177) *)

Definition getOutputPath (inputPath : string) (outputArg : option string) : string :=
  if truthy_opt_string outputArg then or_else outputArg ""
  else
    let hasXmlExt := endsWith (toLowerCase inputPath) ".xml" in
    if hasXmlExt then slice_0_neg 4 inputPath ++ ".pdf" else inputPath ++ ".pdf".

(** The eight spellings of the extension [.xml], up to the case of its
    letters. *)
Definition xml_extensions : list string :=
  [".xml"; ".xmL"; ".xMl"; ".xML"; ".Xml"; ".XmL"; ".XMl"; ".XML"].

(** ** Prefix normalizer ([shared/XML-parser], imported by [cli.ts] line 3) *)

(** Writing a property: an existing key keeps its place and takes the new
    value, a new key goes last. *)
Fixpoint set_prop (o : JsObject) (k : string) (v : JsVal) : JsObject :=
  match o with
  | [] => [(k, v)]
  | (k', v') :: r => if String.eqb k' k then (k', v) :: r else (k', v') :: set_prop r k v
  end.

(** An object built from entries written one after the other: when two
    entries carry the same key the later one wins. *)
Definition fromEntries (entries : list (string * JsVal)) : JsObject :=
  fold_left (fun o kv => set_prop o (fst kv) (snd kv)) entries [].

(** The part of a key after its first colon, if it has one. *)
Fixpoint after_colon (s : string) : option string :=
  match s with
  | EmptyString => None
  | String c r => if Ascii.eqb c ":" then Some r else after_colon r
  end.

(** Modelled from the spec: the key reduction of the prefix normalizer, whose
    source file [shared/XML-parser] is not part of the sources at hand.  A key
    of the form [prefix:localName] is reduced to [localName]; a key without a
    colon is kept. *)
Definition localName (key : string) : string :=
  match after_colon key with
  | Some l => l
  | None => key
  end.

(** Modelled from the spec: [stripPrefixes] of [shared/XML-parser], which is
    not part of the sources at hand.  Every key is reduced to its local name,
    recursively, inside attribute maps and repeated-element sequences; text
    is left alone; of two sibling keys that collapse to one local name the
    later one wins. *)
Fixpoint stripPrefixes (v : JsVal) : JsVal :=
  match v with
  | JStr s => JStr s
  | JArr items => JArr (map stripPrefixes items)
  | JObj props =>
      JObj (fromEntries (map (fun kv => let '(k, x) := kv in (localName k, stripPrefixes x)) props))
  end.

Definition stripPrefixes_obj (o : JsObject) : JsObject :=
  fromEntries (map (fun kv => let '(k, x) := kv in (localName k, stripPrefixes x)) o).

(** What the normalizer does to one entry of an object. *)
Definition strip_entry (kv : string * JsVal) : string * JsVal :=
  let '(k, x) := kv in (localName k, stripPrefixes x).

(** Re-attaching a prefix to every key of a tree. *)
Fixpoint reprefix (p : string) (v : JsVal) : JsVal :=
  match v with
  | JStr s => JStr s
  | JArr items => JArr (map (reprefix p) items)
  | JObj props => JObj (map (fun kv => let '(k, x) := kv in ((p ++ ":" ++ k)%string, reprefix p x)) props)
  end.

(** Leaf, sequence or branch. *)
Inductive Kind : Type := Leaf | Sequence | Branch.

Definition kind (v : JsVal) : Kind :=
  match v with
  | JStr _ => Leaf
  | JArr _ => Sequence
  | JObj _ => Branch
  end.

(** A step from a node to one of its children, and the same step once the
    key has lost its prefix. *)
Inductive Step : Type :=
| Key (k : string)
| Idx (i : nat).

Definition local_step (s : Step) : Step :=
  match s with
  | Key k => Key (localName k)
  | Idx i => Idx i
  end.

(** [reach t path u]: following [path] from [t] leads to the node [u]. *)
Inductive reach : JsVal -> list Step -> JsVal -> Prop :=
| reach_here t : reach t [] t
| reach_key props k v path u :
    In (k, v) props -> reach v path u -> reach (JObj props) (Key k :: path) u
| reach_idx items i v path u :
    nth_error items i = Some v -> reach v path u -> reach (JArr items) (Idx i :: path) u.

Fixpoint no_colon (s : string) : bool :=
  match s with
  | EmptyString => true
  | String c r => negb (Ascii.eqb c ":") && no_colon r
  end.

(** Every object of the tree has pairwise distinct keys. *)
#[local] Unset Elimination Schemes.
Inductive well_formed : JsVal -> Prop :=
| wf_str s : well_formed (JStr s)
| wf_arr items : Forall well_formed items -> well_formed (JArr items)
| wf_obj props :
    NoDup (map fst props) ->
    Forall (fun kv => well_formed (snd kv)) props ->
    well_formed (JObj props).

(** No two sibling keys of the tree collapse to one local name. *)
Inductive collision_free : JsVal -> Prop :=
| cf_str s : collision_free (JStr s)
| cf_arr items : Forall collision_free items -> collision_free (JArr items)
| cf_obj props :
    NoDup (map (fun kv => localName (fst kv)) props) ->
    Forall (fun kv => collision_free (snd kv)) props ->
    collision_free (JObj props).
#[local] Set Elimination Schemes.

Definition sample_tree : JsVal :=
  JObj [("ns:Faktura",
         JObj [("ns:Naglowek",
                JObj [("ns:KodFormularza",
                       JObj [("_attributes", JObj [("kodSystemowy", JStr "FA (2)")]);
                             ("_text", JStr "FA")])]);
               ("ns:FaWiersz", JArr [JObj [("ns:P_7", JObj [("_text", JStr "a")])];
                                     JObj [("ns:P_7", JObj [("_text", JStr "b")])]])])].

(** ** Currency formatter (field formatters of the spec, section 4.3) *)

Definition is_digit (c : ascii) : bool :=
  let n := N_of_ascii c in (48 <=? n)%N && (n <=? 57)%N.

Definition digit_value (c : ascii) : N := (N_of_ascii c - 48)%N.

(** The number written by a string of decimal digits, most significant
    first; [None] as soon as a character is not a digit. *)
Fixpoint digits_value (s : string) (acc : N) : option N :=
  match s with
  | EmptyString => Some acc
  | String c r => if is_digit c then digits_value r (acc * 10 + digit_value c)%N else None
  end.

(** The text before the first decimal point and, if there is a point, the
    text after it. *)
Fixpoint split_point (s : string) : string * option string :=
  match s with
  | EmptyString => (EmptyString, None)
  | String c r =>
      if Ascii.eqb c "." then (EmptyString, Some r)
      else let '(a, b) := split_point r in (String c a, b)
  end.

(** A decimal numeral: an optional minus sign, at least one digit, and
    optionally a point followed by at least one digit.  The result holds the
    sign, the integer part and the value of the first three decimals. *)
Definition first_three (frac : string) : string :=
  substring 0 3 (frac ++ "000").

Definition parse_amount (s : string) : option (bool * N * N) :=
  let '(neg, body) :=
    match s with
    | String c r => if Ascii.eqb c "-" then (true, r) else (false, s)
    | EmptyString => (false, s)
    end in
  let '(int_text, frac) := split_point body in
  if negb (truthy_string int_text) then None
  else
    match digits_value int_text 0, frac with
    | Some i, None => Some (neg, i, 0%N)
    | Some i, Some f =>
        if negb (truthy_string f) then None
        else
          match digits_value f 0 with
          | Some _ =>
              match digits_value (first_three f) 0 with
              | Some t => Some (neg, i, t)
              | None => None
              end
          | None => None
          end
    | None, _ => None
    end.

Definition two_digits (n : N) : string :=
  if (n <? 10)%N then "0" ++ Number_toString n else Number_toString n.

(** Modelled from the spec: the currency formatter of the field formatters,
    whose source file is not part of the sources at hand.  A numeric string
    becomes an amount with exactly two decimals (rounded half up on the third
    one), written with a decimal point; any other string is returned as it
    is.  The function has a result for every input. *)
Definition formatCurrency (value : string) : string :=
  match parse_amount value with
  | Some (neg, i, thousandths) =>
      let cents := ((i * 1000 + thousandths + 5) / 10)%N in
      (if neg then "-" else "") ++ Number_toString (cents / 100) ++ "."
        ++ two_digits (cents mod 100)
  | None => value
  end.

(** A character that no decimal numeral contains. *)
Definition foreign_char (c : ascii) : bool :=
  negb (is_digit c) && negb (Ascii.eqb c ".") && negb (Ascii.eqb c "-").

Fixpoint has_foreign_char (s : string) : bool :=
  match s with
  | EmptyString => false
  | String c r => foreign_char c || has_foreign_char r
  end.

(** ** Decimal numerals *)

(** The number a sequence of decimal digits denotes after the digits [acc]. *)
Fixpoint uint_value (d : Decimal.uint) (acc : N) : N :=
  match d with
  | Decimal.Nil => acc
  | Decimal.D0 l => uint_value l (acc * 10 + 0)%N
  | Decimal.D1 l => uint_value l (acc * 10 + 1)%N
  | Decimal.D2 l => uint_value l (acc * 10 + 2)%N
  | Decimal.D3 l => uint_value l (acc * 10 + 3)%N
  | Decimal.D4 l => uint_value l (acc * 10 + 4)%N
  | Decimal.D5 l => uint_value l (acc * 10 + 5)%N
  | Decimal.D6 l => uint_value l (acc * 10 + 6)%N
  | Decimal.D7 l => uint_value l (acc * 10 + 7)%N
  | Decimal.D8 l => uint_value l (acc * 10 + 8)%N
  | Decimal.D9 l => uint_value l (acc * 10 + 9)%N
  end.

(** [s] is the decimal rendering of [n]: its characters are decimal digits
    that denote [n], with no leading zero except for the numeral ["0"]. *)
Definition is_decimal_of (s : string) (n : N) : Prop :=
  digits_value s 0 = Some n
  /\ (s = "0" \/ exists c r, s = String c r /\ c <> "0"%char).

(** Every character of the string is a decimal digit. *)
Fixpoint all_digits (s : string) : bool :=
  match s with
  | EmptyString => true
  | String c r => is_digit c && all_digits r
  end.

(** ** Page description ([pdfmake/interfaces]) *)

Inductive Alignment : Type :=
| Alignment_left | Alignment_right | Alignment_justify | Alignment_center.

Inductive PageOrientation : Type := portrait | landscape.

(** Modelled from the spec: the member [RIGHT] of the enumeration [Position]
    ([shared/enums/common.enum], not part of the sources at hand), the
    alignment of the footer text to the right. *)
Definition Position_RIGHT : Alignment := Alignment_right.

Record FooterNode : Type := {
  text : string;
  alignment : Alignment;
  margin : list N
}.

(** The properties of a document definition that the assembler or the style
    block may set; [None] is a property that is not set. *)
Record TDocumentDefinitions (Content Style : Type) : Type := {
  content : option (list Content);
  styles : option Style;
  defaultStyle : option Style;
  pageSize : option string;
  pageOrientation : option PageOrientation;
  pageMargins : option (list N);
  footer : option (N -> N -> FooterNode)
}.
Arguments content {Content Style} _.
Arguments styles {Content Style} _.
Arguments defaultStyle {Content Style} _.
Arguments pageSize {Content Style} _.
Arguments pageOrientation {Content Style} _.
Arguments pageMargins {Content Style} _.
Arguments footer {Content Style} _.

Definition later {A : Type} (a b : option A) : option A :=
  match b with
  | Some x => Some x
  | None => a
  end.

(** [{...a, ...b}]: a property of [b] replaces the one of [a]. *)
Definition spread {Content Style : Type} (a b : TDocumentDefinitions Content Style)
  : TDocumentDefinitions Content Style :=
  {| content := later (content a) (content b);
     styles := later (styles a) (styles b);
     defaultStyle := later (defaultStyle a) (defaultStyle b);
     pageSize := later (pageSize a) (pageSize b);
     pageOrientation := later (pageOrientation a) (pageOrientation b);
     pageMargins := later (pageMargins a) (pageMargins b);
     footer := later (footer a) (footer b) |}.

Definition only_content {Content Style : Type} (c : list Content)
  : TDocumentDefinitions Content Style :=
  {| content := Some c; styles := None; defaultStyle := None; pageSize := None;
     pageOrientation := None; pageMargins := None; footer := None |}.

(** The footer function of [generatePDFUPOFromParsed] (lines 286-292). *)
Definition pageFooter (currentPage pageCount : N) : FooterNode :=
  {| text := Number_toString currentPage ++ " z " ++ Number_toString pageCount;
     alignment := Position_RIGHT;
     margin := [0; 0; 20; 0]%N |}.

Definition page_settings {Content Style : Type} (orientation : PageOrientation)
  : TDocumentDefinitions Content Style :=
  {| content := None; styles := None; defaultStyle := None;
     pageSize := Some "A4";
     pageOrientation := Some orientation;
     pageMargins := None;
     footer := Some pageFooter |}.

(** The object literal of [generatePDFUPOFromParsed] (lines 281-293):
    [content], then the spread of [generateStyle()], then the page size, the
    orientation and the footer. *)
Definition docDefinitionUPO {Content Style : Type}
    (generateStyle : TDocumentDefinitions Content Style) (naglowek dokument : Content)
  : TDocumentDefinitions Content Style :=
  spread (spread (only_content [naglowek; dokument]) generateStyle) (page_settings landscape).

(** Modelled from the spec: the document definition of the three invoice
    generators ([lib-public/FA1-generator], [FA2-generator], [FA3-generator],
    not part of the sources at hand).  The layout assembler wraps the content
    of the builder with the shared style block, the fixed page size, the
    portrait orientation of invoices and the page footer. *)
Definition docDefinitionInvoice {Content Style : Type}
    (generateStyle : TDocumentDefinitions Content Style) (body : list Content)
  : TDocumentDefinitions Content Style :=
  spread (spread (only_content body) generateStyle) (page_settings portrait).

(** The page descriptor handed to the renderer for a document of each kind. *)
Definition pageDescriptor {Content Style : Type}
    (generateStyle : TDocumentDefinitions Content Style) (docType : DocumentType)
    (body : list Content) (naglowek dokument : Content)
  : TDocumentDefinitions Content Style :=
  match docType with
  | invoice => docDefinitionInvoice generateStyle body
  | upo => docDefinitionUPO generateStyle naglowek dokument
  end.

(** ** Command line ([cli.ts]) *)

(** [common.types]: the two fields [cli.ts] fills in. *)
Record AdditionalDataTypes : Type := {
  nrKSeF : string;
  qrCode : option string
}.

(** The [values] of [parseArgs]. *)
Module Values.
Record t : Type := {
  output : option string;
  type : option string;
  ksef : option string;
  qrcode : option string;
  json : bool;
  help : bool
}.
End Values.

Module Result.
Record SuccessResult : Type := {
  input : string;
  output : string;
  type : DocumentType;
  size : nat
}.
End Result.

Definition Blob : Type := string.

(** The file system: the content of every file, by path. *)
Abbreviation FS := (gmap string string).

(** What [writeFileSync] does with a path and its data: it writes the file,
    or it throws and leaves under the path what it had put there, if
    anything. *)
Inductive WriteOutcome : Type :=
| Written
| WriteFailed (e : Thrown) (left : option string).

Definition DEFAULT_NR_KSEF : string := "CLI-GENERATED".

Definition makeAdditionalData (nrKSeF qrCode : option string) : AdditionalDataTypes :=
  {| nrKSeF := or_else nrKSeF DEFAULT_NR_KSEF; qrCode := qrCode |}.

(** [error instanceof Error ? error.message : ...] *)
Definition error_message (e : Thrown) (otherwise : string) : string :=
  match e with
  | JsError m | JsTypeError m => m
  | JsRejected _ => otherwise
  end.

(** [error instanceof Error ? error.message : String(error)] *)
Definition reported_message (e : Thrown) : string :=
  match e with
  | JsError m | JsTypeError m => m
  | JsRejected reason => reason
  end.

(** ** Console ([cli.ts], lines 13-34, 54-68, 76-95) *)

Definition double_quote : string := String (ascii_of_nat 34) EmptyString.

Definition line_feed : string := String (ascii_of_nat 10) EmptyString.

(** The template literal [HELP_TEXT]: it starts and ends with a line feed. *)
Definition HELP_TEXT : string :=
  String.concat line_feed
    [ "";
      "KSeF PDF Generator - CLI";
      "";
      "Usage:";
      "  ksef-pdf <input.xml> [options]";
      "";
      "Options:";
      "  -o, --output <path>    Output PDF file path (default: input.pdf)";
      "  -t, --type <type>      Document type: invoice or upo (default: auto-detect)";
      "  -k, --ksef <nr>        KSeF invoice number (optional)";
      "  -q, --qrcode <data>    QR code data (optional)";
      "  -j, --json             Output result as JSON";
      "  -h, --help             Show help";
      "";
      "Examples:";
      "  ksef-pdf invoice.xml";
      "  ksef-pdf invoice.xml -o output.pdf";
      "  ksef-pdf invoice.xml -k " ++ double_quote ++ "1234567890-20240101-ABCD1234-EF"
        ++ double_quote;
      "  ksef-pdf invoice.xml --qrcode " ++ double_quote ++ "<qr_code_link>" ++ double_quote;
      "  ksef-pdf upo.xml -t upo -o upo_output.pdf";
      "  ksef-pdf invoice.xml --json";
      "" ]%string.

(** [CliResult]: what [outputJson] prints. *)
Inductive CliResult : Type :=
| Success (result : Result.SuccessResult)
| Failure (error : string) (input : option string).

(** What the process has printed: one entry for each call of [console.log]
    and of [console.error]. *)
Record Console : Type := {
  stdout : list string;
  stderr : list string
}.

Definition silent : Console := {| stdout := []; stderr := [] |}.

Definition console_log (message : string) (c : Console) : Console :=
  {| stdout := stdout c ++ [message]; stderr := stderr c |}.

Definition console_error (message : string) (c : Console) : Console :=
  {| stdout := stdout c; stderr := stderr c ++ [message] |}.

(** [(size / 1024).toFixed(2)] for the length of a buffer: the quotient is
    exact, and [toFixed] takes the integer [n] for which [n / 100] is nearest
    to it, the larger one of two, and writes it with two decimals. *)
Definition kilobytes_toFixed2 (size : nat) : string :=
  let n := ((N.of_nat size * 100 + 512) / 1024)%N in
  Number_toString (n / 100) ++ "." ++ two_digits (n mod 100).

(** An invoice whose form code is a string the [switch] does not list. *)
Definition unknown_version_xml : JsObject :=
  [("Faktura",
    JObj [("Naglowek",
           JObj [("KodFormularza",
                  JObj [("_attributes", JObj [("kodSystemowy", JStr "FA (4)")])])])])].

(** ** A sample run

    Stand-ins for the libraries that [cli.ts] calls, and a small file
    system, on which the pipeline can be evaluated. *)

Definition sample_invoice_text : string := "<ns:Faktura>FA (2)</ns:Faktura>".

(** The text of which [unknown_version_xml] is the compact form. *)
Definition unknown_version_text : string :=
  "<Faktura><Naglowek><KodFormularza kodSystemowy='FA (4)'/></Naglowek></Faktura>".

Definition sample_invoice_raw : JsObject :=
  match sample_tree with
  | JObj props => props
  | JStr _ | JArr _ => []
  end.

(** A parser that knows four documents and throws on every other text. *)
Definition sample_xml2js (xmlContent : string) : Completion JsObject :=
  if String.eqb xmlContent sample_invoice_text then Normal sample_invoice_raw
  else if String.eqb xmlContent "<Potwierdzenie/>" then Normal [("Potwierdzenie", JObj [])]
  else if String.eqb xmlContent "<Inny/>" then Normal [("Inny", JObj [])]
  else if String.eqb xmlContent unknown_version_text then Normal unknown_version_xml
  else Throw (JsError "Invalid XML").

Fixpoint last_segment (s acc : string) : string :=
  match s with
  | EmptyString => acc
  | String c r => if Ascii.eqb c "/" then last_segment r "" else last_segment r (acc ++ String c "")
  end.

Definition sample_basename (path : string) : string := last_segment path "".

Definition sample_style : TDocumentDefinitions string unit :=
  {| content := None; styles := Some tt; defaultStyle := Some tt; pageSize := None;
     pageOrientation := None; pageMargins := Some [10; 10; 10; 10]%N; footer := None |}.

Definition sample_getBlob (pdf : TDocumentDefinitions string unit) : Completion (option Blob) :=
  match content pdf with
  | Some (String _ _ :: _) => Normal (Some "%PDF-1.3")
  | Some _ => Normal None
  | None => Throw (JsError "No content")
  end.

Definition sample_generateFA (label : string) (faktura : JsVal)
    (additionalData : AdditionalDataTypes) : Completion (TDocumentDefinitions string unit) :=
  Normal (docDefinitionInvoice sample_style [(label ++ " " ++ nrKSeF additionalData)%string]).

Definition sample_section (label : string) (Potwierdzenie : option JsVal) : Completion string :=
  match Potwierdzenie with
  | Some _ => Normal label
  | None => Throw (JsTypeError "undefined is not an object")
  end.

(** Files can be written in the directory [/data] and nowhere else; a file
    whose name ends in [.part] is left empty by the write that fails. *)
Definition sample_write_outcome (path : string) (data : Blob) (fs : FS) : WriteOutcome :=
  if String.eqb (substring 0 6 path) "/data/"
  then if endsWith path ".part"
       then WriteFailed (JsError "ENOSPC: no space left on device, write") (Some "")
       else Written
  else WriteFailed (JsError ("ENOENT: no such file or directory, open '" ++ path ++ "'")) None.

Definition sample_inspect (e : Thrown) : string :=
  match e with
  | JsError m => "error: " ++ m
  | JsTypeError m => "TypeError: " ++ m
  | JsRejected reason => "error: " ++ reason
  end.

Definition sample_values : Values.t :=
  {| Values.output := None; Values.type := None; Values.ksef := None;
     Values.qrcode := Some "https://qr.example/1"; Values.json := false;
     Values.help := false |}.

Definition sample_values_typed (t : string) : Values.t :=
  {| Values.output := None; Values.type := Some t; Values.ksef := None;
     Values.qrcode := None; Values.json := false; Values.help := false |}.

Definition sample_fs : FS :=
  <["/data/faktura.xml" := sample_invoice_text]>
    (<["/data/empty.xml" := "  "]>
       (<["/data/broken.xml" := "<a></b>"]>
          (<["/data/inny.xml" := "<Inny/>"]>
             (<["/data/upo.XML" := "<Potwierdzenie/>"]> ∅)))).

(** The same files and an invoice of a schema version that does not exist. *)
Definition sample_fs_fa4 : FS :=
  <["/data/fa4.xml" := unknown_version_text]> sample_fs.

(** The directory of the files exists and cannot be read as a file. *)
Definition sample_unreadable (path : string) : option Thrown :=
  if String.eqb path "/data"
  then Some (JsError "EISDIR: illegal operation on a directory, read")
  else None.

Definition sample_values_json : Values.t :=
  {| Values.output := None; Values.type := None; Values.ksef := None;
     Values.qrcode := None; Values.json := true; Values.help := false |}.

Definition sample_values_output (o : string) : Values.t :=
  {| Values.output := Some o; Values.type := None; Values.ksef := None;
     Values.qrcode := None; Values.json := false; Values.help := false |}.

Definition sample_resolve (path : string) : string := "/data/" ++ path.

(** A stand-in for [JSON.stringify] on strings that need no escape. *)
Definition sample_JSON_stringify (r : CliResult) : string :=
  let quoted (s : string) := (double_quote ++ s ++ double_quote)%string in
  match r with
  | Success result =>
      "{" ++ quoted "success" ++ ":true," ++ quoted "input" ++ ":"
        ++ quoted (Result.input result) ++ "," ++ quoted "output" ++ ":"
        ++ quoted (Result.output result) ++ "," ++ quoted "type" ++ ":"
        ++ quoted (match Result.type result with invoice => "invoice" | upo => "upo" end)
        ++ "," ++ quoted "size" ++ ":" ++ Number_toString (N.of_nat (Result.size result))
        ++ "}"
  | Failure error input =>
      "{" ++ quoted "success" ++ ":false," ++ quoted "error" ++ ":" ++ quoted error
        ++ match input with
           | Some i => "," ++ quoted "input" ++ ":" ++ quoted i
           | None => ""
           end
        ++ "}"
  end.

Section Pipeline.
(** What [cli.ts] calls and the sources at hand do not define. *)
Variables Content Style TCreatedPdf : Type.
Variable basename : string -> string.
Variable xml2js : string -> Completion JsObject.
Variable createPdf : TDocumentDefinitions Content Style -> TCreatedPdf.
Variable getBlob : TCreatedPdf -> Completion (option Blob).
Variables generateFA1 generateFA2 generateFA3 :
  JsVal -> AdditionalDataTypes -> Completion TCreatedPdf.
Variables generateNaglowekUPO generateDokumnetUPO : option JsVal -> Completion Content.
Variable generateStyle : TDocumentDefinitions Content Style.
Variable values : Values.t.

Definition generatePDFByVersion (version : JsVal) (faktura : JsVal)
    (additionalData : AdditionalDataTypes) : Completion (option TCreatedPdf) :=
  match versionCase version with
  | Some FA1 => let* pdf := generateFA1 faktura additionalData in Normal (Some pdf)
  | Some FA2 => let* pdf := generateFA2 faktura additionalData in Normal (Some pdf)
  | Some FA3 => let* pdf := generateFA3 faktura additionalData in Normal (Some pdf)
  | None => Normal None
  end.

(** The generator that each case of the [switch] calls. *)
Definition generatorOf (v : InvoiceVersion)
  : JsVal -> AdditionalDataTypes -> Completion TCreatedPdf :=
  match v with
  | FA1 => generateFA1
  | FA2 => generateFA2
  | FA3 => generateFA3
  end.

(** The promise that ends [generateInvoicePDF] (lines 155-163), on the
    value that [generatePDFByVersion] returned. *)
Definition getBlobPromise (pdf : option TCreatedPdf) : Completion Blob :=
  match pdf with
  | Some pdf =>
      let* blob := getBlob pdf in
      match blob with
      | Some b => Normal b
      | None => Throw (JsError "Failed to generate PDF blob")
      end
  | None =>
      (* [pdf.getBlob] on [undefined], as JavaScriptCore words it *)
      Throw (JsTypeError "undefined is not an object (evaluating 'pdf.getBlob')")
  end.

Definition generateInvoicePDF (xml : JsObject) (nrKSeF qrCode : option string)
  : Completion Blob :=
  match get_prop xml "Faktura" with
  | Some faktura =>
      if negb (truthy (Some faktura))
      then Throw (JsError "Invalid invoice XML: missing Faktura element")
      else
        match kodSystemowy faktura with
        | Some version =>
            if negb (truthy (Some version))
            then Throw (JsError "Invalid invoice XML: missing version information")
            else
              let additionalData := makeAdditionalData nrKSeF qrCode in
              let* pdf := generatePDFByVersion version faktura additionalData in
              getBlobPromise pdf
        | None => Throw (JsError "Invalid invoice XML: missing version information")
        end
  | None => Throw (JsError "Invalid invoice XML: missing Faktura element")
  end.

Definition generatePDFUPOFromParsed (Potwierdzenie : option JsVal) : Completion Blob :=
  let* naglowek := generateNaglowekUPO Potwierdzenie in
  let* dokument := generateDokumnetUPO Potwierdzenie in
  let docDefinition := docDefinitionUPO generateStyle naglowek dokument in
  let* blob := getBlob (createPdf docDefinition) in
  match blob with
  | Some b => Normal b
  | None => Throw (JsRejected "Error")
  end.

Definition generateUPOPDF (xml : JsObject) : Completion Blob :=
  generatePDFUPOFromParsed (get_prop xml "Potwierdzenie").

Definition parseXmlContent (xmlContent : string) : Completion JsObject :=
  match xml2js xmlContent with
  | Normal raw => Normal (stripPrefixes_obj raw)
  | Throw e => Throw (JsError ("Failed to parse XML: " ++ error_message e "Unknown error"))
  end.

(** The generation step of [processFile] (lines 210-213):
    [docType === 'invoice' ? generateInvoicePDF(...) : generateUPOPDF(...)]. *)
Definition generateBlob (docType : DocumentType) (parsedXml : JsObject) : Completion Blob :=
  match docType with
  | invoice => generateInvoicePDF parsedXml (Values.ksef values) (Values.qrcode values)
  | upo => generateUPOPDF parsedXml
  end.

(** Everything [processFile] does between reading the file and writing the
    output: none of it touches the file system. *)
Definition generate (xmlContent : string) : Completion (DocumentType * Blob) :=
  let* parsedXml := parseXmlContent xmlContent in
  let* resolved := resolveDocumentType (Values.type values) parsedXml in
  let docType := fst resolved in
  let* pdfBlob := generateBlob docType parsedXml in
  Normal (docType, pdfBlob).

(** *** The file system calls of [processFile] (lines 191, 197, 219)

    The map [fs] holds the files that can be read, with their text.  What
    else exists under a path, and whether a write goes through, is for the
    operating system to say. *)

(** Paths that exist without being a file that can be read (a directory, a
    file without read permission), with what [readFileSync] throws on them. *)
Variable unreadable : string -> option Thrown.

Variable write_outcome : string -> Blob -> FS -> WriteOutcome.

Definition existsSync (path : string) (fs : FS) : bool :=
  match fs !! path, unreadable path with
  | Some _, _ => true
  | None, Some _ => true
  | None, None => false
  end.

Definition readFileSync (path : string) (fs : FS) : Completion string :=
  match fs !! path, unreadable path with
  | Some text, _ => Normal text
  | None, Some e => Throw e
  | None, None => Throw (JsError ("ENOENT: no such file or directory, open '" ++ path ++ "'"))
  end.

Definition writeFileSync (path : string) (data : Blob) (fs : FS) : Completion unit * FS :=
  match write_outcome path data fs with
  | Written => (Normal tt, <[path := data]> fs)
  | WriteFailed e (Some partial) => (Throw e, <[path := partial]> fs)
  | WriteFailed e None => (Throw e, fs)
  end.

Definition processFile (inputPath : string) (fs : FS)
  : Completion Result.SuccessResult * FS :=
  let inputFile := basename inputPath in
  if negb (existsSync inputPath fs)
  then (Throw (JsError ("File not found: " ++ inputFile)), fs)
  else
    match readFileSync inputPath fs with
    | Throw e => (Throw e, fs)
    | Normal xmlContent =>
        if negb (truthy_string (trim xmlContent))
        then (Throw (JsError "XML file is empty"), fs)
        else
          match generate xmlContent with
          | Throw e => (Throw e, fs)
          | Normal (docType, pdfBlob) =>
              let outputPath := getOutputPath inputPath (Values.output values) in
              let buffer := pdfBlob in
              match writeFileSync outputPath buffer fs with
              | (Throw e, fs') => (Throw e, fs')
              | (Normal _, fs') =>
                  (Normal {| Result.input := inputFile;
                             Result.output := basename outputPath;
                             Result.type := docType;
                             Result.size := String.length buffer |},
                   fs')
              end
          end
    end.

(** [main] (lines 230-260): the exit code, the one message reported when
    [processFile] throws, and the file system afterwards. *)
Definition main (inputPath : string) (fs : FS) : nat * option string * FS :=
  match processFile inputPath fs with
  | (Normal _, fs') => (0, None, fs')
  | (Throw e, fs') => (1, Some (reported_message e), fs')
  end.

(** *** Console output (lines 76-95, 188-260) *)

(** The three lines [processFile] logs, for a document of a given type. *)
Definition progress_lines (inputPath : string) (docType : DocumentType) : list string :=
  [ ("Loading: " ++ basename inputPath)%string;
    ("Type: " ++ match docType with invoice => "Invoice" | upo => "UPO" end)%string;
    "Generating PDF..." ].

Variable resolve : string -> string.
Variable JSON_stringify : CliResult -> string.

Definition isJsonMode : bool := Values.json values || false.

Definition log (message : string) (c : Console) : Console :=
  if isJsonMode then c else console_log message c.

Definition logError (message : string) (c : Console) : Console :=
  if isJsonMode then c else console_error ("Error: " ++ message) c.

Definition outputJson (result : CliResult) (c : Console) : Console :=
  console_log (JSON_stringify result) c.

(** [processFile] with the lines it logs on the way: [Loading] once the file
    exists, [Type] once the document type is known, then [Generating PDF]. *)
Definition processFile_console (inputPath : string) (fs : FS) (c : Console)
  : Completion Result.SuccessResult * FS * Console :=
  let inputFile := basename inputPath in
  if negb (existsSync inputPath fs)
  then (Throw (JsError ("File not found: " ++ inputFile)), fs, c)
  else
    let c := log ("Loading: " ++ inputFile) c in
    match readFileSync inputPath fs with
    | Throw e => (Throw e, fs, c)
    | Normal xmlContent =>
        if negb (truthy_string (trim xmlContent))
        then (Throw (JsError "XML file is empty"), fs, c)
        else
          match (let* parsedXml := parseXmlContent xmlContent in
                 let* resolved := resolveDocumentType (Values.type values) parsedXml in
                 Normal (parsedXml, fst resolved)) with
          | Throw e => (Throw e, fs, c)
          | Normal (parsedXml, docType) =>
              let c := log ("Type: " ++ match docType with
                                         | invoice => "Invoice"
                                         | upo => "UPO"
                                         end) c in
              let c := log "Generating PDF..." c in
              match generateBlob docType parsedXml with
              | Throw e => (Throw e, fs, c)
              | Normal pdfBlob =>
                  let outputPath := getOutputPath inputPath (Values.output values) in
                  let buffer := pdfBlob in
                  match writeFileSync outputPath buffer fs with
                  | (Throw e, fs') => (Throw e, fs', c)
                  | (Normal _, fs') =>
                      (Normal {| Result.input := inputFile;
                                 Result.output := basename outputPath;
                                 Result.type := docType;
                                 Result.size := String.length buffer |},
                       fs', c)
                  end
              end
          end
    end.

(** [main] on the first positional argument, with what it prints: the exit
    code, the file system and the console afterwards. *)
Definition main_console (positional : string) (fs : FS) : nat * FS * Console :=
  let inputPath := resolve positional in
  match processFile_console inputPath fs silent with
  | (Normal result, fs', c) =>
      if Values.json values then (0, fs', outputJson (Success result) c)
      else
        let c := log ("PDF saved: " ++ Result.output result) c in
        let c := log ("Size: " ++ kilobytes_toFixed2 (Result.size result) ++ " KB") c in
        (0, fs', c)
  | (Throw e, fs', c) =>
      let errorMessage := reported_message e in
      let errorResult :=
        Failure errorMessage
          (if truthy_string inputPath then Some (basename inputPath) else None) in
      if Values.json values then (1, fs', outputJson errorResult c)
      else (1, fs', logError errorMessage c)
  end.

(** What the runtime prints on the standard error for an exception that
    nothing catches. *)
Variable inspect : Thrown -> string.

(** The module from top to bottom.  [parseArgs] (lines 70-74) runs first,
    and [parsed] is what it does with the arguments of the process: it
    throws on an unknown option or on an option without its value, which
    nothing catches, or it returns the positionals that come with [values].
    Then the help exit of lines 92-95, then [main()]. *)
Definition cli (parsed : Completion (list string)) (fs : FS) : nat * FS * Console :=
  match parsed with
  | Throw e => (1, fs, console_error (inspect e) silent)
  | Normal [] => (0, fs, console_log HELP_TEXT silent)
  | Normal (positional :: _) =>
      if Values.help values then (0, fs, console_log HELP_TEXT silent)
      else main_console positional fs
  end.

(** ** Properties of the command-line pipeline *)

Lemma has_key_In (k : string) (o : JsObject) :
  has_key k o = true <-> In k (map fst o).
Proof using.
  unfold has_key.
  induction o as [| [k' v] r IH]; simpl.
  - split; [discriminate | intros []].
  - destruct (String.eqb k' k) eqn:E.
    + apply String.eqb_eq in E. split; auto.
    + apply String.eqb_neq in E. rewrite IH.
      split; [auto | intros [H | H]; [contradiction | assumption]].
Qed.

Lemma has_key_not_In (k : string) (o : JsObject) :
  has_key k o = false <-> ~ In k (map fst o).
Proof using.
  rewrite <- has_key_In. destruct (has_key k o); split; congruence.
Qed.

Lemma versionCase_Some (version : JsVal) (v : InvoiceVersion) :
  versionCase version = Some v <->
  version = JStr (match v with FA1 => "FA (1)" | FA2 => "FA (2)" | FA3 => "FA (3)" end).
Proof using.
  split.
  - destruct version as [s | items | props]; simpl; try discriminate.
    destruct (String.eqb s "FA (1)") eqn:E1;
      [apply String.eqb_eq in E1; subst; intros [= <-]; reflexivity |].
    destruct (String.eqb s "FA (2)") eqn:E2;
      [apply String.eqb_eq in E2; subst; intros [= <-]; reflexivity |].
    destruct (String.eqb s "FA (3)") eqn:E3;
      [apply String.eqb_eq in E3; subst; intros [= <-]; reflexivity |].
    discriminate.
  - intros ->. destruct v; reflexivity.
Qed.

Lemma versionCase_None (version : JsVal) :
  versionCase version = None <->
  (version <> JStr "FA (1)" /\ version <> JStr "FA (2)" /\ version <> JStr "FA (3)").
Proof using.
  split.
  - intros H. repeat split; intros ->; discriminate H.
  - intros (H1 & H2 & H3).
    destruct (versionCase version) as [v |] eqn:E; [| reflexivity].
    apply versionCase_Some in E. destruct v; congruence.
Qed.

Lemma generatePDFByVersion_generatorOf (version faktura : JsVal)
    (additionalData : AdditionalDataTypes) (v : InvoiceVersion) :
  versionCase version = Some v ->
  generatePDFByVersion version faktura additionalData =
  (let* pdf := generatorOf v faktura additionalData in Normal (Some pdf)).
Proof.
  intros H. unfold generatePDFByVersion. rewrite H. destruct v; reflexivity.
Qed.

Lemma generateInvoicePDF_dispatch (xml : JsObject) (faktura version : JsVal)
    (nrKSeF qrCode : option string) :
  get_prop xml "Faktura" = Some faktura ->
  truthy (Some faktura) = true ->
  kodSystemowy faktura = Some version ->
  truthy (Some version) = true ->
  generateInvoicePDF xml nrKSeF qrCode =
  (let* pdf := generatePDFByVersion version faktura (makeAdditionalData nrKSeF qrCode) in
   getBlobPromise pdf).
Proof.
  intros HF HT HV HVT. unfold generateInvoicePDF.
  rewrite HF. rewrite HT. rewrite HV. rewrite HVT. reflexivity.
Qed.

Lemma generateInvoicePDF_generatorOf (xml : JsObject) (faktura version : JsVal)
    (v : InvoiceVersion) (nrKSeF qrCode : option string) :
  get_prop xml "Faktura" = Some faktura ->
  truthy (Some faktura) = true ->
  kodSystemowy faktura = Some version ->
  versionCase version = Some v ->
  generateInvoicePDF xml nrKSeF qrCode =
  (let* pdf := generatorOf v faktura (makeAdditionalData nrKSeF qrCode) in
   getBlobPromise (Some pdf)).
Proof.
  intros HF HT HV HC.
  assert (HVT : truthy (Some version) = true).
  { apply versionCase_Some in HC. subst version. destruct v; reflexivity. }
  rewrite (generateInvoicePDF_dispatch xml faktura version nrKSeF qrCode HF HT HV HVT).
  rewrite (generatePDFByVersion_generatorOf _ _ _ v HC).
  destruct (generatorOf v faktura (makeAdditionalData nrKSeF qrCode)); reflexivity.
Qed.


Lemma generateInvoicePDF_unlisted_version (xml : JsObject) (faktura version : JsVal)
    (nrKSeF qrCode : option string) :
  get_prop xml "Faktura" = Some faktura ->
  truthy (Some faktura) = true ->
  kodSystemowy faktura = Some version ->
  truthy (Some version) = true ->
  versionCase version = None ->
  generateInvoicePDF xml nrKSeF qrCode =
  Throw (JsTypeError "undefined is not an object (evaluating 'pdf.getBlob')").
Proof.
  intros HF HT HV HVT HC.
  rewrite (generateInvoicePDF_dispatch xml faktura version nrKSeF qrCode HF HT HV HVT).
  unfold generatePDFByVersion. rewrite HC. reflexivity.
Qed.

Lemma generateInvoicePDF_missing_version (xml : JsObject) (faktura : JsVal)
    (nrKSeF qrCode : option string) :
  get_prop xml "Faktura" = Some faktura ->
  truthy (Some faktura) = true ->
  truthy (kodSystemowy faktura) = false ->
  generateInvoicePDF xml nrKSeF qrCode =
  Throw (JsError "Invalid invoice XML: missing version information").
Proof.
  intros HF HT HV. unfold generateInvoicePDF. rewrite HF. rewrite HT.
  destruct (kodSystemowy faktura) as [version |]; [| reflexivity].
  rewrite HV. reflexivity.
Qed.

(** C2.  An invoice whose form code is the string [FA (4)]: the [switch] of
    [generatePDFByVersion] has no case for it and returns [undefined], and
    the call [pdf.getBlob] raises a [TypeError] instead of an error that
    names the unknown schema version. *)
Theorem generateInvoicePDF_unknown_version_TypeError (nrKSeF qrCode : option string) :
  generateInvoicePDF unknown_version_xml nrKSeF qrCode =
  Throw (JsTypeError "undefined is not an object (evaluating 'pdf.getBlob')").
Proof. reflexivity. Qed.

(** C3.  An override [invoice] or [upo] is used as it is and detection is
    not called; any other override that is not the empty string makes
    [validateDocumentType] throw the invalid-document-type error, so that a
    file that was read and parsed is not generated; the empty string counts
    as no override. *)
Theorem validateDocumentType_override (t : string) (xml : JsObject) :
  (t = "invoice" -> resolveDocumentType (Some t) xml = Normal (invoice, false))
  /\ (t = "upo" -> resolveDocumentType (Some t) xml = Normal (upo, false))
  /\ (t <> "invoice" -> t <> "upo" -> t <> "" ->
      resolveDocumentType (Some t) xml =
      Throw (JsError ("Invalid document type: " ++ t ++ ". Must be 'invoice' or 'upo'")))
  /\ (forall xmlContent raw,
        Values.type values = Some t ->
        t <> "invoice" -> t <> "upo" -> t <> "" ->
        xml2js xmlContent = Normal raw ->
        generate xmlContent =
        Throw (JsError ("Invalid document type: " ++ t ++ ". Must be 'invoice' or 'upo'")))
  /\ resolveDocumentType (Some "") xml = resolveDocumentType None xml.
Proof.
  assert (Hbad : forall xml, t <> "invoice" -> t <> "upo" -> t <> "" ->
                 resolveDocumentType (Some t) xml =
                 Throw (JsError ("Invalid document type: " ++ t ++ ". Must be 'invoice' or 'upo'"))).
  { intros xml' H1 H2 H3. unfold resolveDocumentType, validateDocumentType.
    destruct t as [| c r]; [congruence |]. simpl truthy_string. simpl negb at 1. cbv iota.
    apply String.eqb_neq in H1. apply String.eqb_neq in H2. rewrite H1, H2. reflexivity. }
  repeat split.
  - intros ->. reflexivity.
  - intros ->. reflexivity.
  - apply Hbad.
  - intros xmlContent raw HT H1 H2 H3 HX.
    unfold generate, parseXmlContent. rewrite HX. simpl bind.
    rewrite HT.
    rewrite (Hbad _ H1 H2 H3). reflexivity.
Qed.

(** C4.  When no registry number is supplied, the generator of the schema
    version receives the additional data whose registry number is the
    default [CLI-GENERATED] and whose QR payload is the one supplied. *)
Theorem generateInvoicePDF_default_nrKSeF (xml : JsObject) (faktura version : JsVal)
    (v : InvoiceVersion) (qr : option string) :
  get_prop xml "Faktura" = Some faktura ->
  truthy (Some faktura) = true ->
  kodSystemowy faktura = Some version ->
  versionCase version = Some v ->
  generateInvoicePDF xml None qr =
  (let* pdf := generatorOf v faktura {| nrKSeF := "CLI-GENERATED"; qrCode := qr |} in
   getBlobPromise (Some pdf))
  /\ nrKSeF (makeAdditionalData None qr) = "CLI-GENERATED"
  /\ qrCode (makeAdditionalData None qr) = qr.
Proof.
  intros HF HT HV HC. split; [| split; reflexivity].
  exact (generateInvoicePDF_generatorOf xml faktura version v None qr HF HT HV HC).
Qed.

Lemma generate_steps (xmlContent : string) :
  generate xmlContent =
  (let* parsedXml := parseXmlContent xmlContent in
   let* resolved := resolveDocumentType (Values.type values) parsedXml in
   let* pdfBlob := generateBlob (fst resolved) parsedXml in
   Normal (fst resolved, pdfBlob)).
Proof. reflexivity. Qed.

Lemma processFile_readable (inputPath : string) (fs : FS) (xmlContent : string) :
  fs !! inputPath = Some xmlContent ->
  processFile inputPath fs =
  (if negb (truthy_string (trim xmlContent))
   then (Throw (JsError "XML file is empty"), fs)
   else
     match generate xmlContent with
     | Throw e => (Throw e, fs)
     | Normal (docType, pdfBlob) =>
         match writeFileSync (getOutputPath inputPath (Values.output values)) pdfBlob fs with
         | (Throw e, fs') => (Throw e, fs')
         | (Normal _, fs') =>
             (Normal {| Result.input := basename inputPath;
                        Result.output :=
                          basename (getOutputPath inputPath (Values.output values));
                        Result.type := docType;
                        Result.size := String.length pdfBlob |},
              fs')
         end
     end).
Proof.
  intros HR. unfold processFile, existsSync, readFileSync. rewrite HR. reflexivity.
Qed.

Lemma processFile_generate_throws (inputPath : string) (fs : FS)
    (xmlContent : string) (e : Thrown) :
  fs !! inputPath = Some xmlContent ->
  trim xmlContent <> "" ->
  generate xmlContent = Throw e ->
  processFile inputPath fs = (Throw e, fs).
Proof.
  intros HR HT HG. rewrite (processFile_readable _ _ _ HR).
  destruct (trim xmlContent) as [| c r] eqn:E; [congruence |].
  simpl. rewrite HG. reflexivity.
Qed.

(** C6.  A run on a readable invoice file whose form code is a string that
    the [switch] does not list, [FA (4)] for one, fails in the generation
    step and writes nothing, and the one failure it yields is the
    [TypeError] of [pdf.getBlob] on [undefined]: the message that [main]
    reports describes neither the document nor its schema version. *)
Theorem processFile_unknown_version_failure (inputPath : string) (fs : FS)
    (xmlContent : string) (raw : JsObject) (faktura version : JsVal) :
  truthy_opt_string (Values.type values) = false ->
  fs !! inputPath = Some xmlContent ->
  trim xmlContent <> "" ->
  xml2js xmlContent = Normal raw ->
  get_prop (stripPrefixes_obj raw) "Faktura" = Some faktura ->
  truthy (Some faktura) = true ->
  kodSystemowy faktura = Some version ->
  truthy (Some version) = true ->
  versionCase version = None ->
  processFile inputPath fs =
  (Throw (JsTypeError "undefined is not an object (evaluating 'pdf.getBlob')"), fs)
  /\ main inputPath fs =
     (1, Some "undefined is not an object (evaluating 'pdf.getBlob')", fs).
Proof.
  intros HO HR HT HX HF HFT HK HVT HC.
  assert (HP : processFile inputPath fs =
               (Throw (JsTypeError "undefined is not an object (evaluating 'pdf.getBlob')"),
                fs)).
  { apply (processFile_generate_throws _ _ xmlContent); [assumption .. |].
    rewrite generate_steps. unfold parseXmlContent. rewrite HX. simpl bind.
    assert (HD : resolveDocumentType (Values.type values) (stripPrefixes_obj raw)
                 = Normal (invoice, true)).
    { unfold resolveDocumentType, validateDocumentType, detectDocumentType, has_key.
      rewrite HF.
      destruct (Values.type values) as [t |]; [| reflexivity].
      simpl in HO. rewrite HO. reflexivity. }
    rewrite HD. simpl bind. simpl fst. unfold generateBlob.
    rewrite (generateInvoicePDF_unlisted_version _ faktura version _ _ HF HFT HK HVT HC).
    reflexivity. }
  split; [exact HP |]. unfold main. rewrite HP. reflexivity.
Qed.

(** ** Further properties of invoice generation *)

(** X5.  [generateInvoicePDF] ends in one of four ways: the missing-element
    error when the tree has no truthy [Faktura]; the missing-version error
    when the form code is absent or empty; the [TypeError] when the form code
    is not one the [switch] lists; otherwise what the generator of the
    version and the blob promise give. *)
Theorem generateInvoicePDF_outcomes (xml : JsObject) (nrKSeF qrCode : option string) :
  (truthy (get_prop xml "Faktura") = false
   /\ generateInvoicePDF xml nrKSeF qrCode =
      Throw (JsError "Invalid invoice XML: missing Faktura element"))
  \/ (exists faktura,
        get_prop xml "Faktura" = Some faktura /\ truthy (Some faktura) = true
        /\ truthy (kodSystemowy faktura) = false
        /\ generateInvoicePDF xml nrKSeF qrCode =
           Throw (JsError "Invalid invoice XML: missing version information"))
  \/ (exists faktura version,
        get_prop xml "Faktura" = Some faktura /\ truthy (Some faktura) = true
        /\ kodSystemowy faktura = Some version /\ truthy (Some version) = true
        /\ versionCase version = None
        /\ generateInvoicePDF xml nrKSeF qrCode =
           Throw (JsTypeError "undefined is not an object (evaluating 'pdf.getBlob')"))
  \/ (exists faktura version v,
        get_prop xml "Faktura" = Some faktura /\ truthy (Some faktura) = true
        /\ kodSystemowy faktura = Some version
        /\ versionCase version = Some v
        /\ generateInvoicePDF xml nrKSeF qrCode =
           (let* pdf := generatorOf v faktura (makeAdditionalData nrKSeF qrCode) in
            getBlobPromise (Some pdf))).
Proof.
  destruct (get_prop xml "Faktura") as [faktura |] eqn:HF.
  2:{ left. split; [first [assumption | reflexivity] |]. unfold generateInvoicePDF. rewrite HF. reflexivity. }
  destruct (truthy (Some faktura)) eqn:HT.
  2:{ left. split; [first [assumption | reflexivity] |]. unfold generateInvoicePDF. rewrite HF, HT. reflexivity. }
  right.
  destruct (truthy (kodSystemowy faktura)) eqn:HV.
  2:{ left. exists faktura. split; [first [assumption | reflexivity] |]. split; [first [assumption | reflexivity] |].
      split; [first [assumption | reflexivity] |].
      apply (generateInvoicePDF_missing_version xml faktura); assumption. }
  right.
  destruct (kodSystemowy faktura) as [version |] eqn:HK; [| discriminate HV].
  destruct (versionCase version) as [v |] eqn:HC.
  - right. exists faktura, version, v.
    split; [first [assumption | reflexivity] |]. split; [first [assumption | reflexivity] |]. split; [first [assumption | reflexivity] |].
    split; [first [assumption | reflexivity] |].
    apply (generateInvoicePDF_generatorOf xml faktura version); assumption.
  - left. exists faktura, version.
    split; [first [assumption | reflexivity] |]. split; [first [assumption | reflexivity] |]. split; [first [assumption | reflexivity] |].
    split; [first [assumption | reflexivity] |]. split; [first [assumption | reflexivity] |].
    apply (generateInvoicePDF_unlisted_version xml faktura version); assumption.
Qed.

Lemma getBlobPromise_Normal (pdf : option TCreatedPdf) (blob : Blob) :
  getBlobPromise pdf = Normal blob ->
  exists p, pdf = Some p /\ getBlob p = Normal (Some blob).
Proof.
  destruct pdf as [p |]; simpl; [| discriminate].
  destruct (getBlob p) as [[b |] | e] eqn:G; simpl; try discriminate.
  intros [= ->]. exists p. split; [reflexivity | exact G].
Qed.

Lemma generateInvoicePDF_Normal (xml : JsObject) (nrKSeF qrCode : option string)
    (blob : Blob) :
  generateInvoicePDF xml nrKSeF qrCode = Normal blob ->
  exists faktura version v pdf,
    get_prop xml "Faktura" = Some faktura
    /\ kodSystemowy faktura = Some version
    /\ versionCase version = Some v
    /\ generatorOf v faktura (makeAdditionalData nrKSeF qrCode) = Normal pdf
    /\ getBlob pdf = Normal (Some blob).
Proof.
  intros H.
  destruct (generateInvoicePDF_outcomes xml nrKSeF qrCode)
    as [[_ E] | [(f & _ & _ & _ & E) | [(f & ve & _ & _ & _ & _ & _ & E)
       | (f & ve & v & HF & _ & HK & HC & E)]]];
    rewrite E in H; try discriminate H.
  destruct (generatorOf v f (makeAdditionalData nrKSeF qrCode)) as [pdf | e] eqn:G;
    [| simpl in H; discriminate H].
  destruct (getBlobPromise_Normal (Some pdf) blob H) as (p & [= <-] & HB).
  exists f, ve, v, pdf. auto.
Qed.

(** X6.  An invoice blob comes out only for a form code that the [switch]
    lists, and it is the blob that the renderer returned for the document
    the generator of that version built; a generator that throws makes
    [generateInvoicePDF] throw the same error, and a renderer that returns
    no blob makes it throw the failed-to-generate error. *)
Theorem generateInvoicePDF_success (xml : JsObject) (nrKSeF qrCode : option string) :
  (forall blob,
     generateInvoicePDF xml nrKSeF qrCode = Normal blob ->
     exists faktura version v pdf,
       get_prop xml "Faktura" = Some faktura
       /\ kodSystemowy faktura = Some version
       /\ versionCase version = Some v
       /\ generatorOf v faktura (makeAdditionalData nrKSeF qrCode) = Normal pdf
       /\ getBlob pdf = Normal (Some blob))
  /\ (forall faktura version v e,
        get_prop xml "Faktura" = Some faktura -> truthy (Some faktura) = true ->
        kodSystemowy faktura = Some version -> versionCase version = Some v ->
        generatorOf v faktura (makeAdditionalData nrKSeF qrCode) = Throw e ->
        generateInvoicePDF xml nrKSeF qrCode = Throw e)
  /\ (forall faktura version v pdf,
        get_prop xml "Faktura" = Some faktura -> truthy (Some faktura) = true ->
        kodSystemowy faktura = Some version -> versionCase version = Some v ->
        generatorOf v faktura (makeAdditionalData nrKSeF qrCode) = Normal pdf ->
        getBlob pdf = Normal None ->
        generateInvoicePDF xml nrKSeF qrCode = Throw (JsError "Failed to generate PDF blob")).
Proof.
  split; [apply generateInvoicePDF_Normal |]. split.
  - intros faktura version v e HF HT HK HC HG.
    rewrite (generateInvoicePDF_generatorOf xml faktura version v _ _ HF HT HK HC).
    rewrite HG. reflexivity.
  - intros faktura version v pdf HF HT HK HC HG HB.
    rewrite (generateInvoicePDF_generatorOf xml faktura version v _ _ HF HT HK HC).
    rewrite HG. simpl. rewrite HB. reflexivity.
Qed.

(** ** Further properties of UPO generation *)

(** X7.  [generatePDFUPOFromParsed] returns a blob exactly when the header
    builder and then the documents builder return and the renderer yields
    that blob for their document definition; an error of the header builder
    comes out before the documents builder counts, and a renderer without a
    blob rejects with the bare string [Error]. *)
Theorem generatePDFUPOFromParsed_outcomes (Potwierdzenie : option JsVal) :
  (forall blob,
     generatePDFUPOFromParsed Potwierdzenie = Normal blob <->
     exists naglowek dokument,
       generateNaglowekUPO Potwierdzenie = Normal naglowek
       /\ generateDokumnetUPO Potwierdzenie = Normal dokument
       /\ getBlob (createPdf (docDefinitionUPO generateStyle naglowek dokument))
          = Normal (Some blob))
  /\ (forall e,
        generateNaglowekUPO Potwierdzenie = Throw e ->
        generatePDFUPOFromParsed Potwierdzenie = Throw e)
  /\ (forall naglowek dokument,
        generateNaglowekUPO Potwierdzenie = Normal naglowek ->
        generateDokumnetUPO Potwierdzenie = Normal dokument ->
        getBlob (createPdf (docDefinitionUPO generateStyle naglowek dokument)) = Normal None ->
        generatePDFUPOFromParsed Potwierdzenie = Throw (JsRejected "Error")).
Proof.
  unfold generatePDFUPOFromParsed. split; [| split].
  - intros blob. split.
    + destruct (generateNaglowekUPO Potwierdzenie) as [h | e]; simpl; [| discriminate].
      destruct (generateDokumnetUPO Potwierdzenie) as [d | e]; simpl; [| discriminate].
      destruct (getBlob (createPdf (docDefinitionUPO generateStyle h d)))
        as [[b |] | e] eqn:G; simpl; try discriminate.
      intros [= ->]. exists h, d. auto.
    + intros (h & d & -> & -> & HB). simpl. rewrite HB. reflexivity.
  - intros e ->. reflexivity.
  - intros h d -> -> HB. simpl. rewrite HB. reflexivity.
Qed.

(** ** Further properties of parsing *)

(** X8.  [parseXmlContent] returns exactly when [xml2js] does, and whatever
    [xml2js] throws comes out as an [Error] whose message starts with
    [Failed to parse XML: ], followed by the message of an error and by
    [Unknown error] for anything else. *)
Theorem parseXmlContent_wraps (xmlContent : string) :
  ((exists parsed, parseXmlContent xmlContent = Normal parsed) <->
   (exists raw, xml2js xmlContent = Normal raw))
  /\ (forall e,
        parseXmlContent xmlContent = Throw e ->
        exists message, e = JsError ("Failed to parse XML: " ++ message))
  /\ (forall message,
        xml2js xmlContent = Throw (JsError message)
        \/ xml2js xmlContent = Throw (JsTypeError message) ->
        parseXmlContent xmlContent = Throw (JsError ("Failed to parse XML: " ++ message)))
  /\ (forall reason,
        xml2js xmlContent = Throw (JsRejected reason) ->
        parseXmlContent xmlContent = Throw (JsError "Failed to parse XML: Unknown error")).
Proof.
  unfold parseXmlContent. split; [| split; [| split]].
  - destruct (xml2js xmlContent) as [raw | e]; split; intros [x H];
      try discriminate H; eauto.
  - intros e. destruct (xml2js xmlContent) as [raw | e']; [discriminate |].
    intros [= <-]. eexists. reflexivity.
  - intros message [-> | ->]; reflexivity.
  - intros reason ->. reflexivity.
Qed.

(** ** Further properties of [processFile] *)

Lemma processFile_cases (inputPath : string) (fs : FS) :
  (exists e, processFile inputPath fs = (Throw e, fs))
  \/ (exists xmlContent docType pdfBlob,
        fs !! inputPath = Some xmlContent
        /\ trim xmlContent <> ""
        /\ generate xmlContent = Normal (docType, pdfBlob)
        /\ ((write_outcome (getOutputPath inputPath (Values.output values)) pdfBlob fs
             = Written
             /\ processFile inputPath fs =
                (Normal {| Result.input := basename inputPath;
                           Result.output :=
                             basename (getOutputPath inputPath (Values.output values));
                           Result.type := docType;
                           Result.size := String.length pdfBlob |},
                 <[getOutputPath inputPath (Values.output values) := pdfBlob]> fs))
            \/ (exists e partial,
                  write_outcome (getOutputPath inputPath (Values.output values)) pdfBlob fs
                  = WriteFailed e (Some partial)
                  /\ processFile inputPath fs =
                     (Throw e,
                      <[getOutputPath inputPath (Values.output values) := partial]> fs)))).
Proof.
  destruct (fs !! inputPath) as [xmlContent |] eqn:HR.
  2:{ left. unfold processFile, existsSync, readFileSync. rewrite HR.
      destruct (unreadable inputPath); simpl; eauto. }
  rewrite (processFile_readable _ _ _ HR).
  destruct (trim xmlContent) as [| c r] eqn:ET; [left; eauto |].
  simpl negb. cbv iota.
  destruct (generate xmlContent) as [[docType pdfBlob] | e] eqn:G; [| left; eauto].
  unfold writeFileSync.
  destruct (write_outcome (getOutputPath inputPath (Values.output values)) pdfBlob fs)
    as [| e [partial |]] eqn:W.
  - right. exists xmlContent, docType, pdfBlob.
    split; [first [assumption | reflexivity] |]. split; [congruence |].
    split; [first [assumption | reflexivity] |].
    left. split; first [assumption | reflexivity].
  - right. exists xmlContent, docType, pdfBlob.
    split; [first [assumption | reflexivity] |]. split; [congruence |].
    split; [first [assumption | reflexivity] |].
    right. exists e, partial. split; first [assumption | reflexivity].
  - left. eauto.
Qed.

Lemma processFile_frame (inputPath : string) (fs : FS)
    (r : Completion Result.SuccessResult) (fs' : FS) (path : string) :
  processFile inputPath fs = (r, fs') ->
  path <> getOutputPath inputPath (Values.output values) ->
  fs' !! path = fs !! path.
Proof.
  intros H Hp.
  destruct (processFile_cases inputPath fs)
    as [[e E] | (xmlContent & docType & pdfBlob & _ & _ & _
                 & [[_ E] | (e & partial & _ & E)])];
    rewrite E in H; injection H as <- <-;
    [reflexivity | apply lookup_insert_ne; congruence ..].
Qed.


Lemma resolveDocumentType_Normal (type : option string) (xml : JsObject)
    (docType : DocumentType) (consulted : bool) :
  resolveDocumentType type xml = Normal (docType, consulted) ->
  (truthy_opt_string type = false /\ consulted = true
   /\ detectDocumentType xml = Normal docType)
  \/ (consulted = false
      /\ type = Some (match docType with invoice => "invoice" | upo => "upo" end)).
Proof using.
  unfold resolveDocumentType, validateDocumentType.
  destruct type as [t |].
  - destruct (truthy_string t) eqn:ET; simpl negb; cbv iota.
    + destruct (String.eqb t "invoice") eqn:E1.
      * apply String.eqb_eq in E1. subst t. simpl. intros [= <- <-]. right. auto.
      * destruct (String.eqb t "upo") eqn:E2; simpl; [| discriminate].
        apply String.eqb_eq in E2. subst t. simpl. intros [= <- <-]. right. auto.
    + simpl. destruct (detectDocumentType xml) as [d |]; simpl; [| discriminate].
      intros [= <- <-]. left. auto.
  - simpl. destruct (detectDocumentType xml) as [d |]; simpl; [| discriminate].
    intros [= <- <-]. left. auto.
Qed.

Lemma detectDocumentType_Normal (xml : JsObject) (docType : DocumentType) :
  detectDocumentType xml = Normal docType ->
  match docType with
  | invoice => In "Faktura" (map fst xml)
  | upo => In "Potwierdzenie" (map fst xml) /\ ~ In "Faktura" (map fst xml)
  end.
Proof using.
  unfold detectDocumentType.
  destruct (has_key "Faktura" xml) eqn:HF.
  - intros [= <-]. apply has_key_In, HF.
  - destruct (has_key "Potwierdzenie" xml) eqn:HP; [| discriminate].
    intros [= <-]. split; [apply has_key_In, HP | apply has_key_not_In, HF].
Qed.

Lemma generate_Normal (xmlContent : string) (docType : DocumentType) (pdfBlob : Blob) :
  generate xmlContent = Normal (docType, pdfBlob) ->
  exists raw consulted,
    xml2js xmlContent = Normal raw
    /\ resolveDocumentType (Values.type values) (stripPrefixes_obj raw)
       = Normal (docType, consulted)
    /\ generateBlob docType (stripPrefixes_obj raw) = Normal pdfBlob.
Proof.
  unfold generate, parseXmlContent.
  destruct (xml2js xmlContent) as [raw | e]; simpl; [| discriminate].
  destruct (resolveDocumentType (Values.type values) (stripPrefixes_obj raw))
    as [[d c] | e] eqn:R; simpl; [| discriminate].
  destruct (generateBlob d (stripPrefixes_obj raw)) as [b | e] eqn:G; simpl; [| discriminate].
  intros [= <- <-]. exists raw, c. auto.
Qed.

(** X10.  A run of [processFile] that returns has read a file that is not
    blank and that [xml2js] parsed; the document type it reports is the
    override when there is one, and otherwise [invoice] only for a
    normalized tree with a [Faktura] key and [upo] only for one with a
    [Potwierdzenie] key and no [Faktura] key; and it reports [invoice] only
    when the form code of the tree is one the [switch] lists. *)
Theorem processFile_success_document (inputPath : string) (fs : FS)
    (result : Result.SuccessResult) (fs' : FS) :
  processFile inputPath fs = (Normal result, fs') ->
  exists xmlContent raw,
    fs !! inputPath = Some xmlContent
    /\ trim xmlContent <> ""
    /\ xml2js xmlContent = Normal raw
    /\ (truthy_opt_string (Values.type values) = true ->
        Values.type values
        = Some (match Result.type result with invoice => "invoice" | upo => "upo" end))
    /\ (truthy_opt_string (Values.type values) = false ->
        match Result.type result with
        | invoice => In "Faktura" (map fst (stripPrefixes_obj raw))
        | upo => In "Potwierdzenie" (map fst (stripPrefixes_obj raw))
                 /\ ~ In "Faktura" (map fst (stripPrefixes_obj raw))
        end)
    /\ (Result.type result = invoice ->
        exists faktura version v,
          get_prop (stripPrefixes_obj raw) "Faktura" = Some faktura
          /\ kodSystemowy faktura = Some version
          /\ versionCase version = Some v).
Proof.
  intros H.
  destruct (processFile_cases inputPath fs)
    as [[e E] | (xmlContent & docType & pdfBlob & HR & HT & HG
                 & [[_ E] | (e & partial & _ & E)])];
    rewrite E in H; try discriminate H.
  injection H as <- <-. simpl Result.type.
  destruct (generate_Normal _ _ _ HG) as (raw & consulted & HX & HD & HB).
  exists xmlContent, raw.
  split; [exact HR |]. split; [exact HT |]. split; [exact HX |].
  apply resolveDocumentType_Normal in HD.
  split; [| split].
  - intros HO. destruct HD as [(HF & _) | (_ & HS)]; [congruence | exact HS].
  - intros HO. destruct HD as [(_ & _ & HD) | (_ & HS)].
    + apply detectDocumentType_Normal, HD.
    + rewrite HS in HO. destruct docType; discriminate HO.
  - intros ->. simpl in HB.
    destruct (generateInvoicePDF_Normal _ _ _ _ HB) as (f & ve & v & pdf & HF & HK & HC & _).
    exists f, ve, v. auto.
Qed.

(** ** Properties of the console output *)

Lemma log_json (message : string) (c : Console) :
  Values.json values = true -> log message c = c.
Proof.
  intros H. unfold log, isJsonMode. rewrite H. reflexivity.
Qed.

Lemma log_plain (message : string) (c : Console) :
  Values.json values = false -> log message c = console_log message c.
Proof.
  intros H. unfold log, isJsonMode. rewrite H. reflexivity.
Qed.

Lemma processFile_console_result (inputPath : string) (fs : FS) (c : Console) :
  (fst (fst (processFile_console inputPath fs c)), snd (fst (processFile_console inputPath fs c)))
  = processFile inputPath fs.
Proof.
  unfold processFile_console, processFile, generate.
  destruct (negb (existsSync inputPath fs)); [reflexivity |].
  destruct (readFileSync inputPath fs) as [xmlContent | e]; [| reflexivity].
  destruct (negb (truthy_string (trim xmlContent))); [reflexivity |].
  destruct (parseXmlContent xmlContent) as [parsedXml | e]; simpl; [| reflexivity].
  destruct (resolveDocumentType (Values.type values) parsedXml) as [[d b] | e];
    simpl; [| reflexivity].
  destruct (generateBlob d parsedXml) as [blob | e]; simpl; [| reflexivity].
  destruct (writeFileSync (getOutputPath inputPath (Values.output values)) blob fs)
    as [[u | e] fs1]; reflexivity.
Qed.

Lemma processFile_console_json (inputPath : string) (fs : FS) (c : Console) :
  Values.json values = true ->
  snd (processFile_console inputPath fs c) = c.
Proof.
  intros H. unfold processFile_console.
  destruct (negb (existsSync inputPath fs)); [reflexivity |].
  rewrite !log_json by exact H.
  destruct (readFileSync inputPath fs) as [xmlContent | e]; [| reflexivity].
  destruct (negb (truthy_string (trim xmlContent))); [reflexivity |].
  destruct (let* parsedXml := parseXmlContent xmlContent in
            let* resolved := resolveDocumentType (Values.type values) parsedXml in
            Normal (parsedXml, fst resolved)) as [[parsedXml d] | e]; [| reflexivity].
  rewrite !log_json by exact H.
  destruct (generateBlob d parsedXml) as [blob | e]; [| reflexivity].
  destruct (writeFileSync (getOutputPath inputPath (Values.output values)) blob fs)
    as [[u | e] fs1]; reflexivity.
Qed.

(** X11.  In JSON mode a run of [main] prints exactly one line on the
    standard output, the stringified result, and nothing on the standard
    error; the result is the success result of [processFile] with exit code
    0, or the error result that carries the message of what was thrown and
    the name of the input, with exit code 1. *)
Theorem main_console_json (positional : string) (fs : FS) :
  Values.json values = true ->
  exists r,
    main_console positional fs =
    (match r with Success _ => 0 | Failure _ _ => 1 end,
     snd (processFile (resolve positional) fs),
     {| stdout := [JSON_stringify r]; stderr := [] |})
    /\ r = match fst (processFile (resolve positional) fs) with
           | Normal result => Success result
           | Throw e =>
               Failure (reported_message e)
                 (if truthy_string (resolve positional)
                  then Some (basename (resolve positional)) else None)
           end.
Proof.
  intros HJ. unfold main_console.
  assert (HR := processFile_console_result (resolve positional) fs silent).
  assert (HC := processFile_console_json (resolve positional) fs silent HJ).
  destruct (processFile_console (resolve positional) fs silent) as [[r fs1] c].
  simpl in HR, HC. subst c. rewrite <- HR. simpl fst. simpl snd.
  destruct r as [result | e]; rewrite HJ.
  - exists (Success result). split; reflexivity.
  - exists (Failure (reported_message e)
              (if truthy_string (resolve positional)
               then Some (basename (resolve positional)) else None)).
    split; reflexivity.
Qed.

Lemma processFile_console_plain (inputPath : string) (fs : FS) :
  Values.json values = false ->
  stderr (snd (processFile_console inputPath fs silent)) = []
  /\ match fst (fst (processFile_console inputPath fs silent)) with
     | Normal result =>
         stdout (snd (processFile_console inputPath fs silent))
         = progress_lines inputPath (Result.type result)
     | Throw _ =>
         stdout (snd (processFile_console inputPath fs silent)) = []
         \/ stdout (snd (processFile_console inputPath fs silent))
            = [("Loading: " ++ basename inputPath)%string]
         \/ exists docType,
              stdout (snd (processFile_console inputPath fs silent))
              = progress_lines inputPath docType
     end.
Proof.
  intros HJ. unfold processFile_console.
  destruct (negb (existsSync inputPath fs)); [split; [reflexivity | left; reflexivity] |].
  rewrite !log_plain by exact HJ.
  destruct (readFileSync inputPath fs) as [xmlContent | e];
    [| split; [reflexivity | right; left; reflexivity]].
  destruct (negb (truthy_string (trim xmlContent)));
    [split; [reflexivity | right; left; reflexivity] |].
  destruct (let* parsedXml := parseXmlContent xmlContent in
            let* resolved := resolveDocumentType (Values.type values) parsedXml in
            Normal (parsedXml, fst resolved)) as [[parsedXml d] | e];
    [| split; [reflexivity | right; left; reflexivity]].
  rewrite !log_plain by exact HJ.
  destruct (generateBlob d parsedXml) as [blob | e]; simpl.
  - destruct (writeFileSync (getOutputPath inputPath (Values.output values)) blob fs)
      as [[u | e] fs1]; simpl.
    + split; reflexivity.
    + split; [reflexivity |]. right. right. exists d. reflexivity.
  - split; [reflexivity |]. right. right. exists d. reflexivity.
Qed.


(** X13.  Without JSON mode, a run of [main] in which [processFile] returns
    ends with exit code 0 and prints five lines on the standard output: the
    three progress lines, the name of the output file and its size in
    kilobytes with two decimals; it prints nothing on the standard error. *)
Theorem main_console_plain_success (positional : string) (fs : FS)
    (result : Result.SuccessResult) (fs1 : FS) :
  Values.json values = false ->
  processFile (resolve positional) fs = (Normal result, fs1) ->
  main_console positional fs =
  (0, fs1,
   {| stdout := progress_lines (resolve positional) (Result.type result)
                ++ [("PDF saved: " ++ Result.output result)%string;
                    ("Size: " ++ kilobytes_toFixed2 (Result.size result) ++ " KB")%string];
      stderr := [] |}).
Proof.
  intros HJ HP.
  assert (HR := processFile_console_result (resolve positional) fs silent).
  destruct (processFile_console_plain (resolve positional) fs HJ) as [HE HO].
  unfold main_console.
  destruct (processFile_console (resolve positional) fs silent) as [[r fs2] c].
  simpl in HR, HE, HO. rewrite HP in HR. injection HR as -> ->.
  rewrite HJ. rewrite !log_plain by exact HJ.
  unfold console_log. simpl. rewrite HE, HO. reflexivity.
Qed.

Lemma main_console_exit (positional : string) (fs : FS) :
  match processFile (resolve positional) fs with
  | (Normal _, fs1) =>
      fst (fst (main_console positional fs)) = 0
      /\ snd (fst (main_console positional fs)) = fs1
  | (Throw _, fs1) =>
      fst (fst (main_console positional fs)) = 1
      /\ snd (fst (main_console positional fs)) = fs1
  end.
Proof.
  assert (HR := processFile_console_result (resolve positional) fs silent).
  unfold main_console.
  destruct (processFile_console (resolve positional) fs silent) as [[r fs2] c].
  simpl in HR. rewrite <- HR.
  destruct r as [result | e]; destruct (Values.json values); split; reflexivity.
Qed.


(** X16.  With the override [invoice] on a file that parses into a tree
    without a [Faktura] key, [processFile] throws the missing-element error
    of [generateInvoicePDF], whatever the generators are, and leaves the
    file system as it was. *)
Theorem processFile_invoice_override_without_Faktura (inputPath : string) (fs : FS)
    (xmlContent : string) (raw : JsObject) :
  Values.type values = Some "invoice" ->
  fs !! inputPath = Some xmlContent ->
  trim xmlContent <> "" ->
  xml2js xmlContent = Normal raw ->
  ~ In "Faktura" (map fst (stripPrefixes_obj raw)) ->
  processFile inputPath fs =
  (Throw (JsError "Invalid invoice XML: missing Faktura element"), fs).
Proof.
  intros HT HR HE HX HF.
  apply (processFile_generate_throws _ _ xmlContent); [assumption .. |].
  rewrite generate_steps. unfold parseXmlContent. rewrite HX, HT. simpl.
  apply has_key_not_In in HF. unfold has_key in HF.
  unfold generateInvoicePDF.
  destruct (get_prop (stripPrefixes_obj raw) "Faktura"); [discriminate HF | reflexivity].
Qed.

(** X17.  Every failure of [processFile] before the write leaves the file
    system as it was: a path that does not exist, a path that cannot be read,
    a blank text, a parse failure, a failure of the type check or of
    detection, a failure of generation.  A run that throws has changed the
    file system only if generation had returned a blob and the write of that
    blob failed after putting something under the output path. *)
Theorem processFile_fails_before_write (inputPath : string) (fs : FS) :
  (existsSync inputPath fs = false ->
   processFile inputPath fs =
   (Throw (JsError ("File not found: " ++ basename inputPath)), fs))
  /\ (forall e,
        fs !! inputPath = None -> unreadable inputPath = Some e ->
        processFile inputPath fs = (Throw e, fs))
  /\ (forall xmlContent,
        fs !! inputPath = Some xmlContent -> trim xmlContent = "" ->
        processFile inputPath fs = (Throw (JsError "XML file is empty"), fs))
  /\ (forall xmlContent e,
        fs !! inputPath = Some xmlContent -> trim xmlContent <> "" ->
        xml2js xmlContent = Throw e ->
        processFile inputPath fs =
        (Throw (JsError ("Failed to parse XML: " ++ error_message e "Unknown error")), fs))
  /\ (forall xmlContent raw e,
        fs !! inputPath = Some xmlContent -> trim xmlContent <> "" ->
        xml2js xmlContent = Normal raw ->
        resolveDocumentType (Values.type values) (stripPrefixes_obj raw) = Throw e ->
        processFile inputPath fs = (Throw e, fs))
  /\ (forall xmlContent raw docType consulted e,
        fs !! inputPath = Some xmlContent -> trim xmlContent <> "" ->
        xml2js xmlContent = Normal raw ->
        resolveDocumentType (Values.type values) (stripPrefixes_obj raw)
        = Normal (docType, consulted) ->
        generateBlob docType (stripPrefixes_obj raw) = Throw e ->
        processFile inputPath fs = (Throw e, fs))
  /\ (forall e fs',
        processFile inputPath fs = (Throw e, fs') ->
        fs' = fs
        \/ exists xmlContent docType pdfBlob partial,
             fs !! inputPath = Some xmlContent
             /\ generate xmlContent = Normal (docType, pdfBlob)
             /\ write_outcome (getOutputPath inputPath (Values.output values)) pdfBlob fs
                = WriteFailed e (Some partial)
             /\ fs' = <[getOutputPath inputPath (Values.output values) := partial]> fs).
Proof.
  split; [| split; [| split; [| split; [| split; [| split]]]]].
  - intros H. unfold processFile. rewrite H. reflexivity.
  - intros e HN HU. unfold processFile, existsSync, readFileSync. rewrite HN, HU.
    reflexivity.
  - intros xmlContent HR HT. rewrite (processFile_readable _ _ _ HR), HT. reflexivity.
  - intros xmlContent e HR HT HX.
    apply (processFile_generate_throws _ _ xmlContent); [assumption .. |].
    rewrite generate_steps. unfold parseXmlContent. rewrite HX. reflexivity.
  - intros xmlContent raw e HR HT HX HC.
    apply (processFile_generate_throws _ _ xmlContent); [assumption .. |].
    rewrite generate_steps. unfold parseXmlContent. rewrite HX. simpl bind.
    rewrite HC. reflexivity.
  - intros xmlContent raw docType consulted e HR HT HX HC HG.
    apply (processFile_generate_throws _ _ xmlContent); [assumption .. |].
    rewrite generate_steps. unfold parseXmlContent. rewrite HX. simpl bind.
    rewrite HC. simpl bind. simpl fst. rewrite HG. reflexivity.
  - intros e fs' HP.
    destruct (processFile_cases inputPath fs)
      as [[e' E] | (xmlContent & docType & pdfBlob & HF & _ & HG
                    & [[_ E] | (e' & partial & HW & E)])];
      rewrite E in HP; try discriminate HP; injection HP as <- <-.
    + left. reflexivity.
    + right. exists xmlContent, docType, pdfBlob, partial. auto.
Qed.
End Pipeline.

(** ** Decimal rendering of page numbers *)

Lemma digits_value_string_of_uint (d : Decimal.uint) (acc : N) :
  digits_value (NilEmpty.string_of_uint d) acc = Some (uint_value d acc).
Proof.
  revert acc. induction d; intros acc; simpl; try reflexivity; apply IHd.
Qed.

Lemma of_uint_acc_uint_value (d : Decimal.uint) (acc : positive) :
  N.pos (Pos.of_uint_acc d acc) = uint_value d (N.pos acc).
Proof.
  revert acc. induction d; intros acc; simpl; try reflexivity;
    rewrite IHd; f_equal; lia.
Qed.

Lemma of_uint_uint_value (d : Decimal.uint) : N.of_uint d = uint_value d 0.
Proof.
  unfold N.of_uint.
  induction d; simpl; try reflexivity; try assumption;
    apply of_uint_acc_uint_value.
Qed.

Lemma to_uint_not_Nil (n : N) : N.to_uint n <> Decimal.Nil.
Proof.
  destruct n as [| p]; simpl; [discriminate | apply DecimalPos.Unsigned.to_uint_nonnil].
Qed.

Lemma nzhead_not_D0 (d l : Decimal.uint) : Decimal.nzhead d <> Decimal.D0 l.
Proof.
  induction d; simpl; try discriminate. assumption.
Qed.

Lemma to_uint_canonical (n : N) :
  N.to_uint n = Decimal.D0 Decimal.Nil \/ forall l, N.to_uint n <> Decimal.D0 l.
Proof.
  assert (H : N.to_uint n = Decimal.unorm (N.to_uint n)).
  { rewrite <- DecimalN.Unsigned.to_of. now rewrite DecimalN.Unsigned.of_to. }
  unfold Decimal.unorm in H.
  destruct (Decimal.nzhead (N.to_uint n)) eqn:E;
    [left; exact H
    | exfalso; exact (nzhead_not_D0 _ _ E)
    | right; intros l Hl; rewrite Hl in H; discriminate H ..].
Qed.

Lemma Number_toString_decimal (n : N) : is_decimal_of (Number_toString n) n.
Proof.
  unfold is_decimal_of, Number_toString, NilZero.string_of_uint.
  assert (Hn := to_uint_not_Nil n).
  assert (Hc := to_uint_canonical n).
  assert (Hv : uint_value (N.to_uint n) 0 = n).
  { rewrite <- of_uint_uint_value. apply DecimalN.Unsigned.of_to. }
  split.
  - rewrite <- Hv at 2.
    destruct (N.to_uint n) eqn:E;
      [congruence | apply digits_value_string_of_uint ..].
  - destruct Hc as [Hc | Hc]; [rewrite Hc; left; reflexivity |].
    destruct (N.to_uint n) eqn:E; try congruence;
      try (right; eexists; eexists; split; [reflexivity | discriminate]).
Qed.



(** ** Output path *)

Lemma string_length_app (a b : string) :
  String.length (a ++ b) = String.length a + String.length b.
Proof. induction a as [| c a IH]; simpl; [reflexivity | now rewrite IH]. Qed.

Lemma toLowerCase_app (a b : string) :
  toLowerCase (a ++ b) = (toLowerCase a ++ toLowerCase b)%string.
Proof. induction a as [| c a IH]; simpl; [reflexivity | now rewrite IH]. Qed.

Lemma toLowerCase_length (s : string) : String.length (toLowerCase s) = String.length s.
Proof. induction s as [| c s IH]; simpl; [reflexivity | now rewrite IH]. Qed.

Lemma substring_all (s : string) : substring 0 (String.length s) s = s.
Proof. induction s as [| c s IH]; simpl; [reflexivity | now rewrite IH]. Qed.

Lemma substring_app_suffix (a b : string) :
  substring (String.length a) (String.length b) (a ++ b) = b.
Proof. induction a as [| c a IH]; simpl; [apply substring_all | exact IH]. Qed.

Lemma substring_app_prefix (a b : string) :
  substring 0 (String.length a) (a ++ b) = a.
Proof.
  induction a as [| c a IH]; simpl; [destruct b; reflexivity | now rewrite IH].
Qed.

Lemma substring_split (s : string) (k : nat) :
  k <= String.length s ->
  s = (substring 0 k s ++ substring k (String.length s - k) s)%string
  /\ String.length (substring k (String.length s - k) s) = String.length s - k.
Proof.
  revert k. induction s as [| c s IH]; intros k Hk; simpl in Hk.
  - assert (k = 0) by lia. subst. split; reflexivity.
  - destruct k as [| k].
    + simpl. rewrite substring_all. split; reflexivity.
    + destruct (IH k ltac:(lia)) as [H1 H2]. simpl. split; [| exact H2].
      transitivity (String c (substring 0 k s ++ substring k (String.length s - k) s)%string);
        [f_equal; exact H1 | reflexivity].
Qed.

Lemma lower_char_dot (c : ascii) : lower_char c = "."%char -> c = "."%char.
Proof.
  destruct c as [[] [] [] [] [] [] [] []]; vm_compute; intros H;
    first [reflexivity | discriminate H].
Qed.

Lemma lower_char_x (c : ascii) : lower_char c = "x"%char -> c = "x"%char \/ c = "X"%char.
Proof.
  destruct c as [[] [] [] [] [] [] [] []]; vm_compute; intros H;
    first [left; reflexivity | right; reflexivity | discriminate H].
Qed.

Lemma lower_char_m (c : ascii) : lower_char c = "m"%char -> c = "m"%char \/ c = "M"%char.
Proof.
  destruct c as [[] [] [] [] [] [] [] []]; vm_compute; intros H;
    first [left; reflexivity | right; reflexivity | discriminate H].
Qed.

Lemma lower_char_l (c : ascii) : lower_char c = "l"%char -> c = "l"%char \/ c = "L"%char.
Proof.
  destruct c as [[] [] [] [] [] [] [] []]; vm_compute; intros H;
    first [left; reflexivity | right; reflexivity | discriminate H].
Qed.

Lemma toLowerCase_xml_extension (ext : string) :
  toLowerCase ext = ".xml" <-> In ext xml_extensions.
Proof.
  split.
  - destruct ext as [| c1 [| c2 [| c3 [| c4 [| c5 r]]]]]; simpl; try discriminate.
    intros [= H1 H2 H3 H4].
    apply lower_char_dot in H1. apply lower_char_x in H2.
    apply lower_char_m in H3. apply lower_char_l in H4.
    subst c1. destruct H2, H3, H4; subst; simpl; tauto.
  - simpl. intros H.
    repeat (destruct H as [H | H]; [subst ext; reflexivity |]). contradiction.
Qed.

Lemma xml_extension_length (ext : string) :
  In ext xml_extensions -> String.length ext = 4.
Proof.
  simpl. intros H.
  repeat (destruct H as [H | H]; [subst ext; reflexivity |]). contradiction.
Qed.

Lemma endsWith_xml_iff (s : string) :
  endsWith (toLowerCase s) ".xml" = true <->
  exists stem ext, s = (stem ++ ext)%string /\ In ext xml_extensions.
Proof.
  unfold endsWith. rewrite toLowerCase_length.
  change (String.length ".xml") with 4. split.
  - intros H. apply andb_prop in H as [HL HE].
    apply Nat.leb_le in HL. apply String.eqb_eq in HE.
    assert (Hk : String.length s - 4 <= String.length s) by lia.
    destruct (substring_split s (String.length s - 4) Hk) as [HS HN].
    replace (String.length s - (String.length s - 4)) with 4 in * by lia.
    exists (substring 0 (String.length s - 4) s), (substring (String.length s - 4) 4 s).
    split; [exact HS |].
    apply toLowerCase_xml_extension.
    set (stem := substring 0 (String.length s - 4) s) in *.
    set (ext := substring (String.length s - 4) 4 s) in *.
    assert (HLow : toLowerCase s = (toLowerCase stem ++ toLowerCase ext)%string)
      by (rewrite <- toLowerCase_app; f_equal; exact HS).
    assert (HP : String.length s - 4 = String.length (toLowerCase stem)).
    { rewrite toLowerCase_length.
      assert (HT := f_equal String.length HS). rewrite string_length_app, HN in HT. lia. }
    assert (HQ : 4 = String.length (toLowerCase ext))
      by (rewrite toLowerCase_length; symmetry; exact HN).
    rewrite HLow, HP in HE. rewrite HQ in HE at 1.
    rewrite substring_app_suffix in HE. exact HE.
  - intros (stem & ext & -> & HI).
    assert (HN := xml_extension_length ext HI).
    apply toLowerCase_xml_extension in HI.
    rewrite string_length_app, HN. apply andb_true_intro. split.
    + apply Nat.leb_le. lia.
    + apply String.eqb_eq. rewrite toLowerCase_app, HI.
      replace (String.length stem + 4 - 4) with (String.length (toLowerCase stem))
        by (rewrite toLowerCase_length; lia).
      apply (substring_app_suffix (toLowerCase stem) ".xml").
Qed.

(** C10.  With no output path given, an input path that ends in [.xml] in
    any case of the letters loses these four characters and gets [.pdf]; any
    other input path gets [.pdf] appended. *)
Theorem getOutputPath_derived (inputPath : string) :
  (forall stem ext,
     inputPath = (stem ++ ext)%string -> In ext xml_extensions ->
     getOutputPath inputPath None = (stem ++ ".pdf")%string)
  /\ ((forall stem ext, inputPath = (stem ++ ext)%string -> ~ In ext xml_extensions) ->
      getOutputPath inputPath None = (inputPath ++ ".pdf")%string).
Proof.
  unfold getOutputPath. simpl truthy_opt_string. cbv iota. split.
  - intros stem ext HS HI.
    assert (HE : endsWith (toLowerCase inputPath) ".xml" = true)
      by (apply endsWith_xml_iff; eauto).
    rewrite HE. f_equal. unfold slice_0_neg. subst inputPath.
    rewrite string_length_app, (xml_extension_length ext HI).
    replace (String.length stem + 4 - 4) with (String.length stem) by lia.
    apply substring_app_prefix.
  - intros HN.
    destruct (endsWith (toLowerCase inputPath) ".xml") eqn:HE; [| reflexivity].
    apply endsWith_xml_iff in HE as (stem & ext & HS & HI).
    exfalso. exact (HN stem ext HS HI).
Qed.

(** ** Currency formatter *)

Lemma foreign_char_not_digit (c : ascii) : foreign_char c = true -> is_digit c = false.
Proof.
  unfold foreign_char. destruct (is_digit c); [discriminate | reflexivity].
Qed.

Lemma digits_value_foreign (s : string) (acc : N) :
  has_foreign_char s = true -> digits_value s acc = None.
Proof.
  revert acc. induction s as [| c r IH]; intros acc; simpl; [discriminate |].
  intros H. destruct (is_digit c) eqn:D; [| reflexivity].
  apply orb_prop in H as [H | H].
  - apply foreign_char_not_digit in H. congruence.
  - apply IH, H.
Qed.

Lemma split_point_foreign (s : string) :
  has_foreign_char s = true ->
  has_foreign_char (fst (split_point s)) = true
  \/ exists f, snd (split_point s) = Some f /\ has_foreign_char f = true.
Proof.
  induction s as [| c r IH]; simpl; [discriminate |].
  intros H. destruct (Ascii.eqb c ".") eqn:E.
  - right. exists r. split; [reflexivity |].
    apply orb_prop in H as [H | H]; [| exact H].
    unfold foreign_char in H. rewrite E in H.
    rewrite andb_false_r in H. discriminate H.
  - destruct (split_point r) as [a b] eqn:S. simpl in *.
    apply orb_prop in H as [H | H].
    + left. rewrite H. reflexivity.
    + destruct (IH H) as [HA | HB]; [left; rewrite HA; apply orb_true_r | right; exact HB].
Qed.

Lemma parse_amount_body_foreign (neg : bool) (body : string) :
  has_foreign_char body = true ->
  (let '(int_text, frac) := split_point body in
   if negb (truthy_string int_text) then None
   else
     match digits_value int_text 0, frac with
     | Some i, None => Some (neg, i, 0%N)
     | Some i, Some f =>
         if negb (truthy_string f) then None
         else
           match digits_value f 0 with
           | Some _ =>
               match digits_value (first_three f) 0 with
               | Some t => Some (neg, i, t)
               | None => None
               end
           | None => None
           end
     | None, _ => None
     end) = None.
Proof.
  intros H. apply split_point_foreign in H.
  destruct (split_point body) as [int_text frac]. simpl in H.
  destruct (negb (truthy_string int_text)); [reflexivity |].
  destruct H as [H | (f & -> & H)].
  - rewrite (digits_value_foreign _ 0%N H). reflexivity.
  - destruct (digits_value int_text 0); [| reflexivity].
    destruct (negb (truthy_string f)); [reflexivity |].
    rewrite (digits_value_foreign _ 0%N H). reflexivity.
Qed.

Lemma parse_amount_foreign (s : string) :
  has_foreign_char s = true -> parse_amount s = None.
Proof.
  intros H. unfold parse_amount.
  destruct s as [| c r]; [discriminate H |].
  destruct (Ascii.eqb c "-") eqn:E.
  - apply parse_amount_body_foreign.
    simpl in H. apply orb_prop in H as [H | H]; [| exact H].
    unfold foreign_char in H. rewrite E in H.
    rewrite andb_false_r in H. discriminate H.
  - apply parse_amount_body_foreign. exact H.
Qed.

(** C8.  The currency formatter has a result for every string: ["1234.5"]
    becomes ["1234.50"], and a string that is not numeric, ["abc"] among
    them, is returned as it is. *)
Theorem formatCurrency_total_passthrough :
  formatCurrency "1234.5" = "1234.50"
  /\ formatCurrency "abc" = "abc"
  /\ (forall s, parse_amount s = None -> formatCurrency s = s)
  /\ (forall s, has_foreign_char s = true -> formatCurrency s = s).
Proof.
  split; [reflexivity |]. split; [reflexivity |].
  assert (H : forall s, parse_amount s = None -> formatCurrency s = s).
  { intros s Hs. unfold formatCurrency. rewrite Hs. reflexivity. }
  split; [exact H |].
  intros s Hs. apply H, parse_amount_foreign, Hs.
Qed.

(** ** Prefix normalizer *)

Lemma stripPrefixes_JObj (props : JsObject) :
  stripPrefixes (JObj props) = JObj (fromEntries (map strip_entry props)).
Proof. reflexivity. Qed.

Lemma set_prop_In (o : JsObject) (k : string) (v : JsVal) (kv : string * JsVal) :
  In kv (set_prop o k v) -> kv = (k, v) \/ In kv o.
Proof.
  induction o as [| [k' v'] r IH]; simpl.
  - intros [H | []]. left. now symmetry.
  - destruct (String.eqb k' k) eqn:E.
    + apply String.eqb_eq in E. subst k'. intros [H | H]; [left; now symmetry | right; now right].
    + intros [H | H]; [right; now left |].
      destruct (IH H) as [H' | H']; [now left | right; now right].
Qed.

Lemma set_prop_fresh (o : JsObject) (k : string) (v : JsVal) :
  ~ In k (map fst o) -> set_prop o k v = o ++ [(k, v)].
Proof.
  induction o as [| [k' v'] r IH]; simpl; [reflexivity |].
  intros H. destruct (String.eqb k' k) eqn:E.
  - apply String.eqb_eq in E. exfalso. apply H. now left.
  - f_equal. apply IH. intros H'. apply H. now right.
Qed.

Lemma set_prop_keys (o : JsObject) (k : string) (v : JsVal) :
  In k (map fst o) -> map fst (set_prop o k v) = map fst o.
Proof.
  induction o as [| [k' v'] r IH]; simpl; [intros [] |].
  intros H. destruct (String.eqb k' k) eqn:E; [reflexivity |].
  simpl. f_equal. apply IH. destruct H as [H | H]; [| exact H].
  apply String.eqb_neq in E. contradiction.
Qed.

Lemma In_dec_string (k : string) (l : list string) : In k l \/ ~ In k l.
Proof.
  destruct (in_dec string_dec k l); [now left | now right].
Qed.

Lemma set_prop_NoDup (o : JsObject) (k : string) (v : JsVal) :
  NoDup (map fst o) -> NoDup (map fst (set_prop o k v)).
Proof.
  intros H. destruct (In_dec_string k (map fst o)) as [HI | HI].
  - now rewrite set_prop_keys.
  - rewrite (set_prop_fresh o k v HI), map_app. simpl.
    apply NoDup_app; split; [exact H |]. split.
    + intros x Hx Hk. apply list_elem_of_In in Hx.
      apply list_elem_of_singleton in Hk. subst x. contradiction.
    + apply NoDup_singleton.
Qed.

Lemma fold_set_prop_NoDup (entries : list (string * JsVal)) (acc : JsObject) :
  NoDup (map fst acc) ->
  NoDup (map fst (fold_left (fun o kv => set_prop o (fst kv) (snd kv)) entries acc)).
Proof.
  revert acc. induction entries as [| [k v] r IH]; intros acc H; simpl; [exact H |].
  apply IH, set_prop_NoDup, H.
Qed.

Lemma fold_set_prop_In (entries : list (string * JsVal)) (acc : JsObject)
    (kv : string * JsVal) :
  In kv (fold_left (fun o kv => set_prop o (fst kv) (snd kv)) entries acc) ->
  In kv acc \/ In kv entries.
Proof.
  revert acc. induction entries as [| [k v] r IH]; intros acc; simpl; [now left |].
  intros H. destruct (IH _ H) as [H' | H']; [| right; now right].
  destruct (set_prop_In _ _ _ _ H') as [-> | H'']; [right; now left | now left].
Qed.

Lemma fold_set_prop_fresh (entries : list (string * JsVal)) (acc : JsObject) :
  NoDup (map fst (acc ++ entries)) ->
  fold_left (fun o kv => set_prop o (fst kv) (snd kv)) entries acc = acc ++ entries.
Proof.
  revert acc. induction entries as [| [k v] r IH]; intros acc H; simpl.
  - now rewrite app_nil_r.
  - assert (HA : acc ++ (k, v) :: r = (acc ++ [(k, v)]) ++ r)
      by (rewrite <- app_assoc; reflexivity).
    rewrite HA in *. rewrite set_prop_fresh; [apply IH, H |].
    rewrite !map_app in H. simpl in H.
    apply NoDup_app in H as [H _]. apply NoDup_app in H as (_ & H & _).
    intros HI. apply (H k); [apply list_elem_of_In, HI | apply list_elem_of_singleton; reflexivity].
Qed.

Lemma fromEntries_NoDup (entries : list (string * JsVal)) :
  NoDup (map fst (fromEntries entries)).
Proof. apply fold_set_prop_NoDup. constructor. Qed.

Lemma fromEntries_In (entries : list (string * JsVal)) (kv : string * JsVal) :
  In kv (fromEntries entries) -> In kv entries.
Proof.
  intros H. destruct (fold_set_prop_In _ _ _ H) as [[] | H']. exact H'.
Qed.

Lemma fromEntries_distinct (entries : list (string * JsVal)) :
  NoDup (map fst entries) -> fromEntries entries = entries.
Proof. intros H. apply (fold_set_prop_fresh entries []). exact H. Qed.

Lemma stripPrefixes_well_formed (t : JsVal) : well_formed (stripPrefixes t).
Proof.
  induction t as [s | items IH | props IH] using JsVal_nested_ind.
  - constructor.
  - simpl. constructor. induction IH; simpl; constructor; assumption.
  - rewrite stripPrefixes_JObj. constructor; [apply fromEntries_NoDup |].
    apply List.Forall_forall. intros [k v] HI. simpl.
    apply fromEntries_In, in_map_iff in HI as ([k0 x] & HE & HI).
    injection HE as _ <-.
    rewrite List.Forall_forall in IH. exact (IH (k0, x) HI).
Qed.

Lemma after_colon_prefixed (p k : string) :
  no_colon p = true -> after_colon (p ++ ":" ++ k) = Some k.
Proof.
  induction p as [| c r IH]; simpl; [reflexivity |].
  intros H. apply andb_prop in H as [HC HR].
  destruct (Ascii.eqb c ":"); [discriminate HC | exact (IH HR)].
Qed.

Lemma localName_prefixed (p k : string) :
  no_colon p = true -> localName (p ++ ":" ++ k) = k.
Proof.
  intros H. unfold localName. now rewrite after_colon_prefixed.
Qed.

Lemma stripPrefixes_reprefix (p : string) (u : JsVal) :
  no_colon p = true -> well_formed u -> stripPrefixes (reprefix p u) = u.
Proof.
  intros Hp.
  induction u as [s | items IH | props IH] using JsVal_nested_ind; intros Hwf.
  - reflexivity.
  - simpl. f_equal. inversion Hwf as [| items' HF |]; subst. clear Hwf.
    induction IH as [| x r Hx Hr IHr]; simpl; [reflexivity |].
    inversion HF; subst. f_equal; auto.
  - inversion Hwf as [| | props' HN HF]; subst.
    simpl reprefix. rewrite stripPrefixes_JObj. f_equal.
    assert (HM : map strip_entry
                   (map (fun kv => let '(k, x) := kv in ((p ++ ":" ++ k)%string, reprefix p x))
                      props) = props).
    { clear HN Hwf.
      induction IH as [| [k x] r Hx Hr IHr]; simpl; [reflexivity |].
      inversion HF; subst. simpl in *.
      rewrite (localName_prefixed p k Hp), Hx by assumption.
      f_equal. auto. }
    rewrite HM. apply fromEntries_distinct, HN.
Qed.

Lemma stripPrefixes_kind (t : JsVal) : kind (stripPrefixes t) = kind t.
Proof. destruct t; reflexivity. Qed.

Lemma stripPrefixes_leaf (u : JsVal) (s : string) : u = JStr s -> stripPrefixes u = JStr s.
Proof. intros ->. reflexivity. Qed.

Lemma reach_stripPrefixes_source (path : list Step) :
  forall t v,
    reach (stripPrefixes t) path v ->
    exists path' u,
      map local_step path' = path /\ reach t path' u /\ v = stripPrefixes u.
Proof.
  induction path as [| step path IH]; intros t v H.
  - inversion H; subst. exists [], t. repeat split. constructor.
  - destruct t as [s | items | props].
    + inversion H.
    + simpl in H. inversion H as [| | items' i v0 path0 u0 HN HR]; subst.
      rewrite nth_error_map in HN.
      destruct (nth_error items i) as [x |] eqn:E; [| discriminate HN].
      injection HN as <-.
      destruct (IH x v HR) as (path' & u & HP & HU & HV).
      exists (Idx i :: path'), u. split; [simpl; now rewrite HP |].
      split; [| exact HV]. econstructor; eassumption.
    + rewrite stripPrefixes_JObj in H.
      inversion H as [| props' k v0 path0 u0 HI HR |]; subst.
      apply fromEntries_In, in_map_iff in HI as ([k0 x] & HE & HI).
      injection HE as <- <-.
      destruct (IH x v HR) as (path' & u & HP & HU & HV).
      exists (Key k0 :: path'), u. split; [simpl; now rewrite HP |].
      split; [| exact HV]. econstructor; eassumption.
Qed.

Lemma reach_stripPrefixes_image (t : JsVal) (path : list Step) (u : JsVal) :
  reach t path u ->
  collision_free t ->
  reach (stripPrefixes t) (map local_step path) (stripPrefixes u).
Proof.
  induction 1 as [t | props k v path u HI HR IH | items i v path u HN HR IH]; intros HC.
  - constructor.
  - inversion HC as [| | props' HD HF]; subst.
    rewrite stripPrefixes_JObj. simpl map.
    apply (reach_key _ (localName k) (stripPrefixes v)).
    + rewrite fromEntries_distinct.
      * apply (in_map strip_entry _ (k, v)), HI.
      * rewrite map_map.
        erewrite map_ext; [exact HD |]. intros [k0 x]. reflexivity.
    + apply IH. rewrite List.Forall_forall in HF. exact (HF (k, v) HI).
  - inversion HC as [| items' HF |]; subst.
    simpl. apply (reach_idx _ i (stripPrefixes v)).
    + rewrite nth_error_map, HN. reflexivity.
    + apply IH. rewrite List.Forall_forall in HF.
      apply HF. eapply nth_error_In, HN.
Qed.

(** C9.  Normalizing, re-attaching a prefix to every key and normalizing
    again gives the tree that normalizing once gives.  Normalization keeps
    the kind of every node (leaf, sequence or branch): each node of the
    result is the normal form of a node of the source at the same place up to
    prefixes, a leaf with its text unchanged; and when no two sibling keys
    collapse to one local name, every node of the source has its normal form
    in the result. *)
Theorem stripPrefixes_reprefix_idempotent (t : JsVal) (p : string) :
  no_colon p = true ->
  stripPrefixes (reprefix p (stripPrefixes t)) = stripPrefixes t
  /\ kind (stripPrefixes t) = kind t
  /\ (forall path v,
        reach (stripPrefixes t) path v ->
        exists path' u,
          map local_step path' = path /\ reach t path' u /\ v = stripPrefixes u
          /\ kind v = kind u /\ (forall s, u = JStr s -> v = JStr s))
  /\ (collision_free t ->
      forall path u,
        reach t path u ->
        reach (stripPrefixes t) (map local_step path) (stripPrefixes u)).
Proof.
  intros Hp. split; [| split; [| split]].
  - apply stripPrefixes_reprefix; [exact Hp | apply stripPrefixes_well_formed].
  - apply stripPrefixes_kind.
  - intros path v H.
    destruct (reach_stripPrefixes_source path t v H) as (path' & u & HP & HU & HV).
    exists path', u. repeat split; try assumption.
    + subst v. apply stripPrefixes_kind.
    + intros s Hs. subst v. now apply stripPrefixes_leaf.
  - intros HC path u H. now apply reach_stripPrefixes_image.
Qed.

(** ** Further properties of the output path *)

Lemma string_app_inv_head (a b c : string) : (a ++ b)%string = (a ++ c)%string -> b = c.
Proof.
  induction a as [| x a IH]; simpl; [auto |]. intros [= H]. auto.
Qed.

Lemma endsWith_app (a b : string) : endsWith (a ++ b) b = true.
Proof.
  unfold endsWith. rewrite string_length_app. apply andb_true_intro. split.
  - apply Nat.leb_le. lia.
  - apply String.eqb_eq.
    replace (String.length a + String.length b - String.length b)
      with (String.length a) by lia.
    apply substring_app_suffix.
Qed.

Lemma slice_0_neg_stem (stem ext : string) :
  String.length ext = 4 -> slice_0_neg 4 (stem ++ ext) = stem.
Proof.
  intros H. unfold slice_0_neg. rewrite string_length_app, H.
  replace (String.length stem + 4 - 4) with (String.length stem) by lia.
  apply substring_app_prefix.
Qed.

Lemma getOutputPath_falsy (inputPath : string) (outputArg : option string) :
  truthy_opt_string outputArg = false ->
  getOutputPath inputPath outputArg = getOutputPath inputPath None.
Proof.
  intros H. unfold getOutputPath. rewrite H. reflexivity.
Qed.

Lemma getOutputPath_not_input (inputPath : string) (outputArg : option string) :
  truthy_opt_string outputArg = false ->
  getOutputPath inputPath outputArg <> inputPath.
Proof.
  intros H. rewrite (getOutputPath_falsy _ _ H). unfold getOutputPath.
  simpl truthy_opt_string. cbv iota.
  destruct (endsWith (toLowerCase inputPath) ".xml") eqn:E.
  - apply endsWith_xml_iff in E as (stem & ext & -> & HI).
    rewrite (slice_0_neg_stem stem ext (xml_extension_length ext HI)).
    intros HE. apply string_app_inv_head in HE. subst ext.
    simpl in HI. intuition discriminate.
  - intros HE. apply (f_equal String.length) in HE.
    rewrite string_length_app in HE. simpl in HE. lia.
Qed.

(** X1.  A non-empty output argument is returned as it is, whatever the
    input path.  With no output argument, or an empty one, the path derived
    from the input always ends in [.pdf] and is never the input path. *)
Theorem getOutputPath_explicit_or_pdf (inputPath : string) (outputArg : option string) :
  (forall o, outputArg = Some o -> o <> "" -> getOutputPath inputPath outputArg = o)
  /\ (truthy_opt_string outputArg = false ->
      endsWith (getOutputPath inputPath outputArg) ".pdf" = true
      /\ getOutputPath inputPath outputArg <> inputPath).
Proof.
  split.
  - intros o -> Ho. unfold getOutputPath. destruct o as [| c r]; [congruence | reflexivity].
  - intros H. split; [| apply getOutputPath_not_input, H].
    rewrite (getOutputPath_falsy _ _ H). unfold getOutputPath.
    simpl truthy_opt_string. cbv iota.
    destruct (endsWith (toLowerCase inputPath) ".xml"); apply endsWith_app.
Qed.

(** ** Further properties of the page description *)

(** X2.  In the document definition of a UPO the style block supplies the
    styles, the default style and the page margins unchanged, it cannot
    replace the footer, and the content is the header followed by the
    documents unless the style block itself carries a content, which then
    takes its place. *)
Theorem docDefinitionUPO_spread (Content Style : Type)
    (generateStyle : TDocumentDefinitions Content Style) (naglowek dokument : Content) :
  styles (docDefinitionUPO generateStyle naglowek dokument) = styles generateStyle
  /\ defaultStyle (docDefinitionUPO generateStyle naglowek dokument)
     = defaultStyle generateStyle
  /\ pageMargins (docDefinitionUPO generateStyle naglowek dokument)
     = pageMargins generateStyle
  /\ footer (docDefinitionUPO generateStyle naglowek dokument) = Some pageFooter
  /\ (content generateStyle = None ->
      content (docDefinitionUPO generateStyle naglowek dokument)
      = Some [naglowek; dokument])
  /\ (forall c, content generateStyle = Some c ->
      content (docDefinitionUPO generateStyle naglowek dokument) = Some c).
Proof.
  unfold docDefinitionUPO, spread, later. simpl.
  repeat split.
  - destruct (styles generateStyle); reflexivity.
  - destruct (defaultStyle generateStyle); reflexivity.
  - destruct (pageMargins generateStyle); reflexivity.
  - intros ->. reflexivity.
  - intros c ->. reflexivity.
Qed.

Lemma digits_value_all_digits (s : string) (acc n : N) :
  digits_value s acc = Some n -> all_digits s = true.
Proof.
  revert acc. induction s as [| c r IH]; intros acc; simpl; [reflexivity |].
  destruct (is_digit c); [apply IH | discriminate].
Qed.

Lemma Number_toString_digits (n : N) : all_digits (Number_toString n) = true.
Proof.
  destruct (Number_toString_decimal n) as [H _].
  exact (digits_value_all_digits _ _ _ H).
Qed.

Lemma Number_toString_inj (n m : N) : Number_toString n = Number_toString m -> n = m.
Proof.
  intros H.
  destruct (Number_toString_decimal n) as [Hn _].
  destruct (Number_toString_decimal m) as [Hm _].
  rewrite H in Hn. congruence.
Qed.

Lemma digits_then_separator (a a' b b' : string) :
  all_digits a = true -> all_digits a' = true ->
  (a ++ " z " ++ b)%string = (a' ++ " z " ++ b')%string ->
  a = a' /\ b = b'.
Proof.
  revert a'. induction a as [| c r IH]; intros [| c' r'] Ha Ha' H.
  - split; [reflexivity |]. exact (string_app_inv_head " z " b b' H).
  - exfalso. simpl in H. injection H as Hc _. subst c'.
    simpl in Ha'. discriminate Ha'.
  - exfalso. simpl in H. injection H as Hc _. subst c.
    simpl in Ha. discriminate Ha.
  - simpl in H. injection H as Hc Hr. subst c'.
    simpl in Ha, Ha'. apply andb_prop in Ha as [_ Ha]. apply andb_prop in Ha' as [_ Ha'].
    destruct (IH r' Ha Ha' Hr) as [-> ->]. split; reflexivity.
Qed.

(** X3.  The footer text tells the page and the page count apart: two
    footers with the same text, for page numbers in the safe-integer range,
    were made for the same current page and the same page count. *)
Theorem pageFooter_injective (currentPage pageCount currentPage' pageCount' : N) :
  (currentPage <= MAX_SAFE_INTEGER)%N -> (pageCount <= MAX_SAFE_INTEGER)%N ->
  (currentPage' <= MAX_SAFE_INTEGER)%N -> (pageCount' <= MAX_SAFE_INTEGER)%N ->
  text (pageFooter currentPage pageCount) = text (pageFooter currentPage' pageCount') ->
  currentPage = currentPage' /\ pageCount = pageCount'.
Proof.
  simpl. intros _ _ _ _ H.
  apply digits_then_separator in H as [H1 H2]; try apply Number_toString_digits.
  split; apply Number_toString_inj; assumption.
Qed.

(** ** Further properties of the form code *)

(** X4.  The form code is found exactly when the invoice element is an
    object whose [Naglowek] is an object whose [KodFormularza] is an object
    whose [_attributes] is an object with a [kodSystemowy] property; a node
    on this path that is a text or a repeated element hides the code. *)
Theorem kodSystemowy_chain (faktura version : JsVal) :
  kodSystemowy faktura = Some version <->
  exists f n k a,
    faktura = JObj f
    /\ get_prop f "Naglowek" = Some (JObj n)
    /\ get_prop n "KodFormularza" = Some (JObj k)
    /\ get_prop k "_attributes" = Some (JObj a)
    /\ get_prop a "kodSystemowy" = Some version.
Proof.
  unfold kodSystemowy. split.
  - destruct faktura as [s | items | f]; simpl; try discriminate.
    destruct (get_prop f "Naglowek") as [[s | items | n] |] eqn:E1;
      simpl; try discriminate.
    destruct (get_prop n "KodFormularza") as [[s | items | k] |] eqn:E2;
      simpl; try discriminate.
    destruct (get_prop k "_attributes") as [[s | items | a] |] eqn:E3;
      simpl; try discriminate.
    intros H. exists f, n, k, a. auto.
  - intros (f & n & k & a & -> & H1 & H2 & H3 & H4).
    simpl. rewrite H1. simpl. rewrite H2. simpl. rewrite H3. simpl. exact H4.
Qed.

(** ** The input file after a run *)

(** X15.  When no output path is given, or an empty one, a run of
    [processFile] leaves the input file as it was, whether the run returns
    or throws: the derived output path is never the input path. *)
Theorem processFile_keeps_input (Content Style TCreatedPdf : Type)
    (basename : string -> string) (xml2js : string -> Completion JsObject)
    (createPdf : TDocumentDefinitions Content Style -> TCreatedPdf)
    (getBlob : TCreatedPdf -> Completion (option Blob))
    (generateFA1 generateFA2 generateFA3 :
       JsVal -> AdditionalDataTypes -> Completion TCreatedPdf)
    (generateNaglowekUPO generateDokumnetUPO : option JsVal -> Completion Content)
    (generateStyle : TDocumentDefinitions Content Style) (values : Values.t)
    (unreadable : string -> option Thrown)
    (write_outcome : string -> Blob -> FS -> WriteOutcome)
    (inputPath : string) (fs : FS) :
  truthy_opt_string (Values.output values) = false ->
  forall r fs',
    processFile Content Style TCreatedPdf basename xml2js createPdf getBlob
      generateFA1 generateFA2 generateFA3 generateNaglowekUPO generateDokumnetUPO
      generateStyle values unreadable write_outcome inputPath fs = (r, fs') ->
    fs' !! inputPath = fs !! inputPath.
Proof.
  intros HO r fs' H.
  apply (processFile_frame Content Style TCreatedPdf basename xml2js createPdf getBlob
           generateFA1 generateFA2 generateFA3 generateNaglowekUPO generateDokumnetUPO
           generateStyle values unreadable write_outcome inputPath fs r fs' inputPath H).
  intros HE. symmetry in HE. exact (getOutputPath_not_input _ _ HO HE).
Qed.

Example getOutputPath_lower : getOutputPath "a/invoice.xml" None = "a/invoice.pdf".
Proof. reflexivity. Qed.

Example getOutputPath_upper : getOutputPath "INVOICE.XML" None = "INVOICE.pdf".
Proof. reflexivity. Qed.

Example getOutputPath_mixed : getOutputPath "upo.Xml" None = "upo.pdf".
Proof. reflexivity. Qed.

Example getOutputPath_other : getOutputPath "data.txt" None = "data.txt.pdf".
Proof. reflexivity. Qed.

Example getOutputPath_short : getOutputPath "xml" None = "xml.pdf".
Proof. reflexivity. Qed.

Example getOutputPath_explicit : getOutputPath "a.xml" (Some "out/b.pdf") = "out/b.pdf".
Proof. reflexivity. Qed.

Example trim_blank : trim (String "009" (String "010" "  ")) = "".
Proof. reflexivity. Qed.

Example trim_inner : trim "  <a> </a> " = "<a> </a>".
Proof. reflexivity. Qed.

Example Number_toString_12 : Number_toString 12 = "12".
Proof. reflexivity. Qed.

Example Number_toString_0 : Number_toString 0 = "0".
Proof. reflexivity. Qed.

Example stripPrefixes_sample :
  stripPrefixes sample_tree =
  JObj [("Faktura",
         JObj [("Naglowek",
                JObj [("KodFormularza",
                       JObj [("_attributes", JObj [("kodSystemowy", JStr "FA (2)")]);
                             ("_text", JStr "FA")])]);
               ("FaWiersz", JArr [JObj [("P_7", JObj [("_text", JStr "a")])];
                                  JObj [("P_7", JObj [("_text", JStr "b")])]])])].
Proof. reflexivity. Qed.

Example stripPrefixes_collision :
  stripPrefixes (JObj [("a:x", JStr "1"); ("y", JStr "2"); ("b:x", JStr "3")])
  = JObj [("x", JStr "3"); ("y", JStr "2")].
Proof. reflexivity. Qed.

Example stripPrefixes_reprefix_sample :
  stripPrefixes (reprefix "tns" (stripPrefixes sample_tree)) = stripPrefixes sample_tree.
Proof. reflexivity. Qed.

Example formatCurrency_integer : formatCurrency "12" = "12.00".
Proof. reflexivity. Qed.

Example formatCurrency_round : formatCurrency "0.005" = "0.01".
Proof. reflexivity. Qed.

Example formatCurrency_negative : formatCurrency "-3.14159" = "-3.14".
Proof. reflexivity. Qed.

Example formatCurrency_carry : formatCurrency "9.999" = "10.00".
Proof. reflexivity. Qed.

Example formatCurrency_two_points : formatCurrency "1.2.3" = "1.2.3".
Proof. reflexivity. Qed.

Example formatCurrency_empty : formatCurrency "" = "".
Proof. reflexivity. Qed.

Example trim_nbsp :
  trim (String (ascii_of_nat 194) (String (ascii_of_nat 160) " ")) = "".
Proof. reflexivity. Qed.

Example trim_bom_and_line_separator :
  trim (String (ascii_of_nat 239) (String (ascii_of_nat 187) (String (ascii_of_nat 191)
          ("<a/>" ++ String (ascii_of_nat 226) (String (ascii_of_nat 128)
                       (String (ascii_of_nat 168) ""))))))
  = "<a/>".
Proof. reflexivity. Qed.

Example trim_keeps_inner_and_other_bytes :
  trim (String (ascii_of_nat 194) (String (ascii_of_nat 133) " a b "))
  = String (ascii_of_nat 194) (String (ascii_of_nat 133) " a b").
Proof. reflexivity. Qed.

(** ** The sample run *)

Local Abbreviation sample_generateInvoicePDF :=
  (generateInvoicePDF (TDocumentDefinitions string unit) sample_getBlob
     (sample_generateFA "FA1") (sample_generateFA "FA2") (sample_generateFA "FA3")).

Local Abbreviation sample_generate values :=
  (generate string unit (TDocumentDefinitions string unit)
     sample_xml2js (fun d => d) sample_getBlob
     (sample_generateFA "FA1") (sample_generateFA "FA2") (sample_generateFA "FA3")
     (sample_section "naglowek") (sample_section "dokumenty") sample_style values).

Local Abbreviation sample_processFile values :=
  (processFile string unit (TDocumentDefinitions string unit)
     sample_basename sample_xml2js (fun d => d) sample_getBlob
     (sample_generateFA "FA1") (sample_generateFA "FA2") (sample_generateFA "FA3")
     (sample_section "naglowek") (sample_section "dokumenty") sample_style values
     sample_unreadable sample_write_outcome).

Example sample_invoice_run :
  sample_processFile sample_values "/data/faktura.xml" sample_fs =
  (Normal {| Result.input := "faktura.xml"; Result.output := "faktura.pdf";
             Result.type := invoice; Result.size := 8 |},
   <["/data/faktura.pdf" := "%PDF-1.3"]> sample_fs).
Proof. vm_compute. reflexivity. Qed.

Example sample_upo_run :
  sample_processFile sample_values "/data/upo.XML" sample_fs =
  (Normal {| Result.input := "upo.XML"; Result.output := "upo.pdf";
             Result.type := upo; Result.size := 8 |},
   <["/data/upo.pdf" := "%PDF-1.3"]> sample_fs).
Proof. vm_compute. reflexivity. Qed.

Example sample_upo_override_on_invoice :
  sample_processFile (sample_values_typed "upo") "/data/faktura.xml" sample_fs =
  (Throw (JsTypeError "undefined is not an object"), sample_fs).
Proof. vm_compute. reflexivity. Qed.


Lemma validateDocumentType_override_witness :
  resolveDocumentType (Some "invoice") [("Potwierdzenie", JObj [])] = Normal (invoice, false)
  /\ resolveDocumentType (Some "upo") [("Faktura", JObj [])] = Normal (upo, false)
  /\ resolveDocumentType (Some "faktura") [("Faktura", JObj [])] =
     Throw (JsError "Invalid document type: faktura. Must be 'invoice' or 'upo'")
  /\ sample_generate (sample_values_typed "faktura") sample_invoice_text =
     Throw (JsError "Invalid document type: faktura. Must be 'invoice' or 'upo'").
Proof.
  split; [| split; [| split]].
  - apply (validateDocumentType_override string unit (TDocumentDefinitions string unit)
             sample_xml2js (fun d => d) sample_getBlob
             (sample_generateFA "FA1") (sample_generateFA "FA2") (sample_generateFA "FA3")
             (sample_section "naglowek") (sample_section "dokumenty") sample_style
             (sample_values_typed "invoice") "invoice").
    reflexivity.
  - apply (validateDocumentType_override string unit (TDocumentDefinitions string unit)
             sample_xml2js (fun d => d) sample_getBlob
             (sample_generateFA "FA1") (sample_generateFA "FA2") (sample_generateFA "FA3")
             (sample_section "naglowek") (sample_section "dokumenty") sample_style
             (sample_values_typed "upo") "upo").
    reflexivity.
  - apply (validateDocumentType_override string unit (TDocumentDefinitions string unit)
             sample_xml2js (fun d => d) sample_getBlob
             (sample_generateFA "FA1") (sample_generateFA "FA2") (sample_generateFA "FA3")
             (sample_section "naglowek") (sample_section "dokumenty") sample_style
             (sample_values_typed "faktura") "faktura"); discriminate.
  - apply (validateDocumentType_override string unit (TDocumentDefinitions string unit)
             sample_xml2js (fun d => d) sample_getBlob
             (sample_generateFA "FA1") (sample_generateFA "FA2") (sample_generateFA "FA3")
             (sample_section "naglowek") (sample_section "dokumenty") sample_style
             (sample_values_typed "faktura") "faktura" [])
      with (raw := sample_invoice_raw);
      first [reflexivity | discriminate].
Defined.

(** The empty string is an override that is neither [invoice] nor [upo],
    and processing does not fail on it: detection is called. *)
Lemma validateDocumentType_empty_override_counterexample :
  "" <> "invoice" /\ "" <> "upo"
  /\ resolveDocumentType (Some "") [("Faktura", JObj [])] = Normal (invoice, true)
  /\ ~ (forall (t : string) (xml : JsObject),
          t <> "invoice" -> t <> "upo" ->
          exists message, resolveDocumentType (Some t) xml = Throw (JsError message)).
Proof.
  split; [discriminate |]. split; [discriminate |]. split; [reflexivity |].
  intros H.
  destruct (H "" [("Faktura", JObj [])]) as [message Hm]; [discriminate | discriminate |].
  vm_compute in Hm. discriminate Hm.
Qed.

Lemma generateInvoicePDF_default_nrKSeF_witness :
  sample_generateInvoicePDF (stripPrefixes_obj sample_invoice_raw) None (Some "qr")
  = Normal "%PDF-1.3"
  /\ nrKSeF (makeAdditionalData None (Some "qr")) = "CLI-GENERATED"
  /\ qrCode (makeAdditionalData None (Some "qr")) = Some "qr".
Proof.
  destruct (generateInvoicePDF_default_nrKSeF _ sample_getBlob
              (sample_generateFA "FA1") (sample_generateFA "FA2") (sample_generateFA "FA3")
              (stripPrefixes_obj sample_invoice_raw)
              (JObj [("Naglowek",
                      JObj [("KodFormularza",
                             JObj [("_attributes", JObj [("kodSystemowy", JStr "FA (2)")]);
                                   ("_text", JStr "FA")])]);
                     ("FaWiersz", JArr [JObj [("P_7", JObj [("_text", JStr "a")])];
                                        JObj [("P_7", JObj [("_text", JStr "b")])]])])
              (JStr "FA (2)") FA2 (Some "qr"))
    as (H1 & H2 & H3); try (vm_compute; reflexivity).
  split; [| split; assumption].
  rewrite H1. vm_compute. reflexivity.
Defined.

Lemma processFile_unknown_version_failure_witness :
  sample_processFile sample_values "/data/fa4.xml" sample_fs_fa4
  = (Throw (JsTypeError "undefined is not an object (evaluating 'pdf.getBlob')"),
     sample_fs_fa4)
  /\ main string unit (TDocumentDefinitions string unit)
       sample_basename sample_xml2js (fun d => d) sample_getBlob
       (sample_generateFA "FA1") (sample_generateFA "FA2") (sample_generateFA "FA3")
       (sample_section "naglowek") (sample_section "dokumenty") sample_style
       sample_values sample_unreadable sample_write_outcome "/data/fa4.xml" sample_fs_fa4
     = (1, Some "undefined is not an object (evaluating 'pdf.getBlob')", sample_fs_fa4).
Proof.
  apply (processFile_unknown_version_failure string unit (TDocumentDefinitions string unit)
           sample_basename sample_xml2js (fun d => d) sample_getBlob
           (sample_generateFA "FA1") (sample_generateFA "FA2") (sample_generateFA "FA3")
           (sample_section "naglowek") (sample_section "dokumenty") sample_style
           sample_values sample_unreadable sample_write_outcome
           "/data/fa4.xml" sample_fs_fa4 unknown_version_text unknown_version_xml
           (JObj [("Naglowek",
                   JObj [("KodFormularza",
                          JObj [("_attributes", JObj [("kodSystemowy", JStr "FA (4)")])])])])
           (JStr "FA (4)"));
    first [discriminate | vm_compute; reflexivity].
Defined.


Lemma formatCurrency_total_passthrough_witness :
  parse_amount "abc" = None /\ formatCurrency "abc" = "abc"
  /\ has_foreign_char "12,50 PLN" = true /\ formatCurrency "12,50 PLN" = "12,50 PLN".
Proof.
  destruct formatCurrency_total_passthrough as (_ & _ & H1 & H2).
  split; [reflexivity |]. split; [apply H1; reflexivity |].
  split; [reflexivity |]. apply H2. reflexivity.
Defined.

Lemma sample_tree_collision_free : collision_free sample_tree.
Proof.
  unfold sample_tree.
  repeat first
    [ apply cf_str
    | apply cf_arr
    | apply cf_obj
    | apply List.Forall_nil
    | apply List.Forall_cons
    | apply (bool_decide_unpack _); vm_compute; exact I
    | progress simpl ].
Defined.

Lemma stripPrefixes_reprefix_idempotent_witness :
  no_colon "tns" = true
  /\ stripPrefixes (reprefix "tns" (stripPrefixes sample_tree)) = stripPrefixes sample_tree
  /\ kind (stripPrefixes sample_tree) = kind sample_tree
  /\ reach (stripPrefixes sample_tree)
       (map local_step [Key "ns:Faktura"; Key "ns:FaWiersz"; Idx 1; Key "ns:P_7"; Key "_text"])
       (stripPrefixes (JStr "b")).
Proof.
  destruct (stripPrefixes_reprefix_idempotent sample_tree "tns" eq_refl)
    as (H1 & H2 & _ & H4).
  split; [reflexivity |]. split; [exact H1 |]. split; [exact H2 |].
  apply (H4 sample_tree_collision_free).
  unfold sample_tree.
  repeat first
    [ apply reach_here
    | eapply reach_key; [simpl; auto 10 |]
    | eapply reach_idx; [reflexivity |] ].
Defined.

Lemma getOutputPath_derived_witness :
  getOutputPath "/data/upo.XML" None = "/data/upo.pdf"
  /\ getOutputPath "/data/notes.txt" None = "/data/notes.txt.pdf".
Proof.
  split.
  - apply (proj1 (getOutputPath_derived "/data/upo.XML") "/data/upo" ".XML").
    + reflexivity.
    + simpl. auto 10.
  - apply (proj2 (getOutputPath_derived "/data/notes.txt")).
    intros stem ext HS HI.
    assert (HE : endsWith (toLowerCase "/data/notes.txt") ".xml" = true)
      by (apply endsWith_xml_iff; eauto).
    discriminate HE.
Defined.

(** ** The sample run, continued *)

Local Abbreviation sample_main_console values :=
  (main_console string unit (TDocumentDefinitions string unit)
     sample_basename sample_xml2js (fun d => d) sample_getBlob
     (sample_generateFA "FA1") (sample_generateFA "FA2") (sample_generateFA "FA3")
     (sample_section "naglowek") (sample_section "dokumenty") sample_style values
     sample_unreadable sample_write_outcome sample_resolve sample_JSON_stringify).

Local Abbreviation sample_cli values :=
  (cli string unit (TDocumentDefinitions string unit)
     sample_basename sample_xml2js (fun d => d) sample_getBlob
     (sample_generateFA "FA1") (sample_generateFA "FA2") (sample_generateFA "FA3")
     (sample_section "naglowek") (sample_section "dokumenty") sample_style values
     sample_unreadable sample_write_outcome sample_resolve sample_JSON_stringify
     sample_inspect).

Local Abbreviation sample_generatePDFUPOFromParsed :=
  (generatePDFUPOFromParsed string unit (TDocumentDefinitions string unit)
     (fun d => d) sample_getBlob
     (sample_section "naglowek") (sample_section "dokumenty") sample_style).

Example sample_plain_console :
  sample_main_console sample_values "faktura.xml" sample_fs =
  (0, <["/data/faktura.pdf" := "%PDF-1.3"]> sample_fs,
   {| stdout := ["Loading: faktura.xml"; "Type: Invoice"; "Generating PDF...";
                 "PDF saved: faktura.pdf"; "Size: 0.01 KB"];
      stderr := [] |}).
Proof. vm_compute. reflexivity. Qed.

Example sample_json_console :
  stdout (snd (sample_main_console sample_values_json "missing.xml" sample_fs)) =
  [("{" ++ double_quote ++ "success" ++ double_quote ++ ":false,"
     ++ double_quote ++ "error" ++ double_quote ++ ":"
     ++ double_quote ++ "File not found: missing.xml" ++ double_quote ++ ","
     ++ double_quote ++ "input" ++ double_quote ++ ":"
     ++ double_quote ++ "missing.xml" ++ double_quote ++ "}")%string].
Proof. vm_compute. reflexivity. Qed.

Example kilobytes_toFixed2_39731 : kilobytes_toFixed2 (N.to_nat 39731) = "38.80".
Proof. vm_compute. reflexivity. Qed.

Example kilobytes_toFixed2_half : kilobytes_toFixed2 128 = "0.13".
Proof. vm_compute. reflexivity. Qed.

Lemma getOutputPath_explicit_or_pdf_witness :
  getOutputPath "/data/faktura.xml" (Some "wynik") = "wynik"
  /\ endsWith (getOutputPath "/data/faktura.xml" (Some "")) ".pdf" = true
  /\ getOutputPath "/data/faktura.xml" (Some "") <> "/data/faktura.xml".
Proof.
  split.
  - apply (proj1 (getOutputPath_explicit_or_pdf "/data/faktura.xml" (Some "wynik")) "wynik");
      [reflexivity | discriminate].
  - apply (proj2 (getOutputPath_explicit_or_pdf "/data/faktura.xml" (Some ""))).
    reflexivity.
Defined.

Lemma docDefinitionUPO_spread_witness :
  content (docDefinitionUPO sample_style "naglowek" "dokumenty")
  = Some ["naglowek"; "dokumenty"]
  /\ content (docDefinitionUPO (only_content ["styl"] : TDocumentDefinitions string unit)
                "naglowek" "dokumenty")
     = Some ["styl"].
Proof.
  split.
  - destruct (docDefinitionUPO_spread string unit sample_style "naglowek" "dokumenty")
      as (_ & _ & _ & _ & H & _).
    apply H. reflexivity.
  - destruct (docDefinitionUPO_spread string unit (only_content ["styl"])
                "naglowek" "dokumenty") as (_ & _ & _ & _ & _ & H).
    apply H. reflexivity.
Defined.

Lemma pageFooter_injective_witness :
  (1 <= MAX_SAFE_INTEGER)%N /\ (11 <= MAX_SAFE_INTEGER)%N
  /\ text (pageFooter 1 11) = text (pageFooter (0 + 1) (10 + 1))
  /\ (1 = 0 + 1 /\ 11 = 10 + 1)%N.
Proof.
  assert (H1 : (1 <= MAX_SAFE_INTEGER)%N) by (vm_compute; discriminate).
  assert (H11 : (11 <= MAX_SAFE_INTEGER)%N) by (vm_compute; discriminate).
  split; [exact H1 |]. split; [exact H11 |]. split; [reflexivity |].
  apply (pageFooter_injective 1 11 (0 + 1) (10 + 1) H1 H11 H1 H11). reflexivity.
Defined.

Lemma kodSystemowy_chain_witness :
  kodSystemowy (JObj [("Naglowek",
                       JObj [("KodFormularza",
                              JObj [("_attributes",
                                     JObj [("kodSystemowy", JStr "FA (3)")])])])])
  = Some (JStr "FA (3)")
  /\ ~ (exists version,
          kodSystemowy (JObj [("Naglowek", JArr [JObj []; JObj []])]) = Some version).
Proof.
  split.
  - apply kodSystemowy_chain. do 4 eexists. repeat split; reflexivity.
  - intros [version H]. apply kodSystemowy_chain in H.
    destruct H as (f & n & k & a & [= <-] & H & _). discriminate H.
Defined.

Lemma generateInvoicePDF_success_witness :
  (exists faktura version v pdf,
     get_prop (stripPrefixes_obj sample_invoice_raw) "Faktura" = Some faktura
     /\ kodSystemowy faktura = Some version
     /\ versionCase version = Some v
     /\ sample_generateFA
          (match v with FA1 => "FA1" | FA2 => "FA2" | FA3 => "FA3" end)
          faktura (makeAdditionalData None None) = Normal pdf
     /\ sample_getBlob pdf = Normal (Some "%PDF-1.3"))
  /\ generateInvoicePDF (TDocumentDefinitions string unit) sample_getBlob
       (fun _ _ => Throw (JsError "FA1")) (fun _ _ => Throw (JsError "FA2"))
       (fun _ _ => Throw (JsError "FA3"))
       (stripPrefixes_obj sample_invoice_raw) None None = Throw (JsError "FA2")
  /\ generateInvoicePDF (TDocumentDefinitions string unit) sample_getBlob
       (sample_generateFA "") (sample_generateFA "") (fun _ _ => Normal (only_content []))
       [("Faktura",
         JObj [("Naglowek",
                JObj [("KodFormularza",
                       JObj [("_attributes", JObj [("kodSystemowy", JStr "FA (3)")])])])])]
       None None = Throw (JsError "Failed to generate PDF blob").
Proof.
  split; [| split].
  - destruct (proj1 (generateInvoicePDF_success (TDocumentDefinitions string unit)
                       sample_getBlob (sample_generateFA "FA1") (sample_generateFA "FA2")
                       (sample_generateFA "FA3")
                       (stripPrefixes_obj sample_invoice_raw) None None)
                "%PDF-1.3")
      as (faktura & version & v & pdf & H1 & H2 & H3 & H4 & H5);
      [vm_compute; reflexivity |].
    exists faktura, version, v, pdf. repeat split; try assumption.
    destruct v; exact H4.
  - eapply (proj1 (proj2 (generateInvoicePDF_success (TDocumentDefinitions string unit)
                            sample_getBlob _ _ _ (stripPrefixes_obj sample_invoice_raw)
                            None None)))
      with (v := FA2); vm_compute; reflexivity.
  - eapply (proj2 (proj2 (generateInvoicePDF_success (TDocumentDefinitions string unit)
                            sample_getBlob _ _ _ _ None None)))
      with (v := FA3); vm_compute; reflexivity.
Defined.

Lemma generatePDFUPOFromParsed_outcomes_witness :
  sample_generatePDFUPOFromParsed (Some (JObj [])) = Normal "%PDF-1.3"
  /\ sample_generatePDFUPOFromParsed None
     = Throw (JsTypeError "undefined is not an object")
  /\ generatePDFUPOFromParsed string unit (TDocumentDefinitions string unit)
       (fun d => d) (fun _ => Normal None)
       (sample_section "naglowek") (sample_section "dokumenty") sample_style
       (Some (JObj [])) = Throw (JsRejected "Error").
Proof.
  split; [| split].
  - apply (proj1 (generatePDFUPOFromParsed_outcomes string unit (TDocumentDefinitions string unit)
                    (fun d => d) sample_getBlob
                    (sample_section "naglowek") (sample_section "dokumenty") sample_style
                    (Some (JObj [])))).
    exists "naglowek", "dokumenty". repeat split; reflexivity.
  - apply (proj1 (proj2 (generatePDFUPOFromParsed_outcomes string unit
                           (TDocumentDefinitions string unit)
                           (fun d => d) sample_getBlob
                           (sample_section "naglowek") (sample_section "dokumenty")
                           sample_style None))).
    reflexivity.
  - apply (proj2 (proj2 (generatePDFUPOFromParsed_outcomes string unit
                           (TDocumentDefinitions string unit)
                           (fun d => d) (fun _ => Normal None)
                           (sample_section "naglowek") (sample_section "dokumenty")
                           sample_style (Some (JObj []))))
             "naglowek" "dokumenty"); reflexivity.
Defined.

Lemma parseXmlContent_wraps_witness :
  (exists parsed, parseXmlContent sample_xml2js "<Inny/>" = Normal parsed)
  /\ parseXmlContent sample_xml2js "<a></b>" = Throw (JsError "Failed to parse XML: Invalid XML")
  /\ parseXmlContent (fun _ => Throw (JsRejected "zly plik")) "<a></b>"
     = Throw (JsError "Failed to parse XML: Unknown error")
  /\ exists message,
       JsError "Failed to parse XML: Invalid XML" = JsError ("Failed to parse XML: " ++ message).
Proof.
  split; [| split; [| split]].
  - apply (proj1 (parseXmlContent_wraps sample_xml2js "<Inny/>")).
    eexists. reflexivity.
  - apply (proj1 (proj2 (proj2 (parseXmlContent_wraps sample_xml2js "<a></b>")))).
    left. reflexivity.
  - apply (proj2 (proj2 (proj2 (parseXmlContent_wraps
                                  (fun _ => Throw (JsRejected "zly plik")) "<a></b>")))
             "zly plik").
    reflexivity.
  - apply (proj1 (proj2 (parseXmlContent_wraps sample_xml2js "<a></b>"))).
    reflexivity.
Defined.


Lemma processFile_success_document_witness :
  exists xmlContent raw,
    sample_fs !! "/data/upo.XML" = Some xmlContent
    /\ trim xmlContent <> ""
    /\ sample_xml2js xmlContent = Normal raw
    /\ In "Potwierdzenie" (map fst (stripPrefixes_obj raw))
    /\ ~ In "Faktura" (map fst (stripPrefixes_obj raw)).
Proof.
  destruct (processFile_success_document string unit (TDocumentDefinitions string unit)
              sample_basename sample_xml2js (fun d => d) sample_getBlob
              (sample_generateFA "FA1") (sample_generateFA "FA2") (sample_generateFA "FA3")
              (sample_section "naglowek") (sample_section "dokumenty") sample_style
              sample_values sample_unreadable sample_write_outcome "/data/upo.XML" sample_fs
              {| Result.input := "upo.XML"; Result.output := "upo.pdf";
                 Result.type := upo; Result.size := 8 |}
              (<["/data/upo.pdf" := "%PDF-1.3"]> sample_fs))
    as (xmlContent & raw & H1 & H2 & H3 & _ & H5 & _); [vm_compute; reflexivity |].
  exists xmlContent, raw.
  split; [exact H1 |]. split; [exact H2 |]. split; [exact H3 |].
  exact (H5 eq_refl).
Defined.

Lemma main_console_json_witness :
  Values.json sample_values_json = true
  /\ exists r,
       sample_main_console sample_values_json "inny.xml" sample_fs
       = (match r with Success _ => 0 | Failure _ _ => 1 end, sample_fs,
          {| stdout := [sample_JSON_stringify r]; stderr := [] |})
       /\ r = Failure "Unable to detect document type. Use -t invoice or -t upo"
                (Some "inny.xml").
Proof.
  split; [reflexivity |].
  destruct (main_console_json string unit (TDocumentDefinitions string unit)
              sample_basename sample_xml2js (fun d => d) sample_getBlob
              (sample_generateFA "FA1") (sample_generateFA "FA2") (sample_generateFA "FA3")
              (sample_section "naglowek") (sample_section "dokumenty") sample_style
              sample_values_json sample_unreadable sample_write_outcome sample_resolve sample_JSON_stringify
              "inny.xml" sample_fs eq_refl) as (r & H1 & H2).
  exists r. split; [| rewrite H2; vm_compute; reflexivity].
  rewrite H1.
  match goal with
  | |- (_, ?x, _) = _ =>
      assert (E : x = sample_fs) by (vm_compute; reflexivity); rewrite E
  end.
  reflexivity.
Defined.


Lemma main_console_plain_success_witness :
  Values.json sample_values = false
  /\ sample_main_console sample_values "upo.XML" sample_fs
     = (0, <["/data/upo.pdf" := "%PDF-1.3"]> sample_fs,
        {| stdout := ["Loading: upo.XML"; "Type: UPO"; "Generating PDF...";
                      "PDF saved: upo.pdf"; "Size: 0.01 KB"];
           stderr := [] |}).
Proof.
  split; [reflexivity |].
  apply (main_console_plain_success string unit (TDocumentDefinitions string unit)
           sample_basename sample_xml2js (fun d => d) sample_getBlob
           (sample_generateFA "FA1") (sample_generateFA "FA2") (sample_generateFA "FA3")
           (sample_section "naglowek") (sample_section "dokumenty") sample_style
           sample_values sample_unreadable sample_write_outcome sample_resolve sample_JSON_stringify
           "upo.XML" sample_fs
           {| Result.input := "upo.XML"; Result.output := "upo.pdf";
              Result.type := upo; Result.size := 8 |}
           (<["/data/upo.pdf" := "%PDF-1.3"]> sample_fs));
    [reflexivity | vm_compute; reflexivity].
Defined.


Lemma processFile_keeps_input_witness :
  truthy_opt_string (Values.output sample_values) = false
  /\ (<["/data/faktura.pdf" := "%PDF-1.3"]> sample_fs) !! "/data/faktura.xml"
     = sample_fs !! "/data/faktura.xml".
Proof.
  split; [reflexivity |].
  apply (processFile_keeps_input string unit (TDocumentDefinitions string unit)
           sample_basename sample_xml2js (fun d => d) sample_getBlob
           (sample_generateFA "FA1") (sample_generateFA "FA2") (sample_generateFA "FA3")
           (sample_section "naglowek") (sample_section "dokumenty") sample_style
           sample_values sample_unreadable sample_write_outcome "/data/faktura.xml" sample_fs eq_refl
           (Normal {| Result.input := "faktura.xml"; Result.output := "faktura.pdf";
                      Result.type := invoice; Result.size := 8 |})).
  vm_compute. reflexivity.
Defined.

Lemma processFile_invoice_override_without_Faktura_witness :
  sample_processFile (sample_values_typed "invoice") "/data/upo.XML" sample_fs
  = (Throw (JsError "Invalid invoice XML: missing Faktura element"), sample_fs).
Proof.
  apply (processFile_invoice_override_without_Faktura string unit
           (TDocumentDefinitions string unit)
           sample_basename sample_xml2js (fun d => d) sample_getBlob
           (sample_generateFA "FA1") (sample_generateFA "FA2") (sample_generateFA "FA3")
           (sample_section "naglowek") (sample_section "dokumenty") sample_style
           (sample_values_typed "invoice") sample_unreadable sample_write_outcome "/data/upo.XML" sample_fs
           "<Potwierdzenie/>" [("Potwierdzenie", JObj [])]).
  - reflexivity.
  - vm_compute. reflexivity.
  - discriminate.
  - reflexivity.
  - vm_compute. intros [H | []]. discriminate H.
Defined.

Lemma processFile_fails_before_write_witness :
  sample_processFile sample_values "/data/missing.xml" sample_fs
  = (Throw (JsError "File not found: missing.xml"), sample_fs)
  /\ sample_processFile sample_values "/data" sample_fs
     = (Throw (JsError "EISDIR: illegal operation on a directory, read"), sample_fs)
  /\ sample_processFile sample_values "/data/empty.xml" sample_fs
     = (Throw (JsError "XML file is empty"), sample_fs)
  /\ sample_processFile sample_values "/data/broken.xml" sample_fs
     = (Throw (JsError "Failed to parse XML: Invalid XML"), sample_fs)
  /\ sample_processFile sample_values "/data/inny.xml" sample_fs
     = (Throw (JsError "Unable to detect document type. Use -t invoice or -t upo"),
        sample_fs)
  /\ sample_processFile (sample_values_typed "upo") "/data/faktura.xml" sample_fs
     = (Throw (JsTypeError "undefined is not an object"), sample_fs)
  /\ (<["/data/wynik.part" := ""]> sample_fs = sample_fs
      \/ exists xmlContent docType pdfBlob partial,
           sample_fs !! "/data/faktura.xml" = Some xmlContent
           /\ sample_generate (sample_values_output "/data/wynik.part") xmlContent
              = Normal (docType, pdfBlob)
           /\ sample_write_outcome
                (getOutputPath "/data/faktura.xml" (Some "/data/wynik.part")) pdfBlob sample_fs
              = WriteFailed (JsError "ENOSPC: no space left on device, write") (Some partial)
           /\ <["/data/wynik.part" := ""]> sample_fs
              = <[getOutputPath "/data/faktura.xml" (Some "/data/wynik.part") := partial]>
                  sample_fs).
Proof.
  pose (thm := fun values inputPath =>
    processFile_fails_before_write string unit (TDocumentDefinitions string unit)
      sample_basename sample_xml2js (fun d => d) sample_getBlob
      (sample_generateFA "FA1") (sample_generateFA "FA2") (sample_generateFA "FA3")
      (sample_section "naglowek") (sample_section "dokumenty") sample_style
      values sample_unreadable sample_write_outcome inputPath sample_fs).
  split; [| split; [| split; [| split; [| split; [| split]]]]].
  - apply (proj1 (thm sample_values "/data/missing.xml")). vm_compute. reflexivity.
  - apply (proj1 (proj2 (thm sample_values "/data"))); vm_compute; reflexivity.
  - apply (proj1 (proj2 (proj2 (thm sample_values "/data/empty.xml"))) "  ");
      vm_compute; reflexivity.
  - refine (proj1 (proj2 (proj2 (proj2 (thm sample_values "/data/broken.xml"))))
              "<a></b>" (JsError "Invalid XML") _ _ _).
    + vm_compute. reflexivity.
    + discriminate.
    + reflexivity.
  - refine (proj1 (proj2 (proj2 (proj2 (proj2 (thm sample_values "/data/inny.xml")))))
              "<Inny/>" [("Inny", JObj [])] _ _ _ _ _).
    + vm_compute. reflexivity.
    + discriminate.
    + reflexivity.
    + reflexivity.
  - refine (proj1 (proj2 (proj2 (proj2 (proj2 (proj2
              (thm (sample_values_typed "upo") "/data/faktura.xml"))))))
              sample_invoice_text sample_invoice_raw upo false _ _ _ _ _ _).
    + vm_compute. reflexivity.
    + discriminate.
    + reflexivity.
    + reflexivity.
    + reflexivity.
  - refine (proj2 (proj2 (proj2 (proj2 (proj2 (proj2
              (thm (sample_values_output "/data/wynik.part") "/data/faktura.xml"))))))
              (JsError "ENOSPC: no space left on device, write")
              (<["/data/wynik.part" := ""]> sample_fs) _).
    vm_compute. reflexivity.
Defined.
